(** * Angel Downloader backend: the job registry, progress hook, cancellation
    and retention sweeper of [src/main.py], embedded in Rocq.

    The Python program keeps four module-level dictionaries and a download
    directory, and mutates them from request handlers, from the progress hook
    that the extractor calls back, and from a background sweeper.  The
    embedding keeps that shape: Python values are a small inductive type,
    dictionaries are [gmap string _], floats are IEEE binary64 numbers
    ([spec_float] at precision 53), exceptions are values of an error monad
    that threads the global state, and the places where another thread can
    run are explicit in the scripts that drive a worker. *)

From Stdlib Require Import ZArith String Ascii List Bool Lia.
From Stdlib Require Import Floats.SpecFloat.
From stdpp Require Import base option list gmap strings pretty.

Local Open Scope string_scope.
Local Open Scope Z_scope.

(** ** Python values *)

Module Py.

(** The scalar values the program reads from and writes into its
    dictionaries. *)
Inductive pyval :=
  | VNone
  | VBool (b : bool)
  | VInt (z : Z)
  | VFloat (f : spec_float)
  | VStr (s : string).

#[global] Instance spec_float_eq_dec : EqDecision spec_float.
Proof. solve_decision. Defined.
#[global] Instance pyval_eq_dec : EqDecision pyval.
Proof. solve_decision. Defined.

(** A Python [dict] with string keys. *)
Abbreviation dict := (gmap string pyval).

(** [d.get(k, default)]: the default is used only when the key is absent; a
    key stored with [None] yields [None]. *)
Definition get_default (d : dict) (k : string) (dflt : pyval) : pyval :=
  match d !! k with Some v => v | None => dflt end.

(** [d.get(k)] *)
Definition get (d : dict) (k : string) : pyval := get_default d k VNone.

(** [d.update({...})] with the pairs in source order. *)
Definition update (kvs : list (string * pyval)) (d : dict) : dict :=
  fold_left (fun acc kv => <[kv.1 := kv.2]> acc) kvs d.

(** [dict] literal *)
Definition mkdict (kvs : list (string * pyval)) : dict := update kvs ∅.

(** *** Exceptions *)

Inductive exc_class :=
  | Exception | KeyError | TypeError | ValueError
  | ZeroDivisionError | OverflowError | AttributeError.

(** An exception object; [exc_msg] is what [str(e)] returns. *)
Record pyexc := PyExc { exc_cls : exc_class; exc_msg : string }.

Inductive result (A : Type) :=
  | Ok (a : A)
  | Raise (e : pyexc).
Arguments Ok {A} a.
Arguments Raise {A} e.

#[global] Instance result_ret : MRet result := fun A a => Ok a.
#[global] Instance result_bind : MBind result := fun A B f m =>
  match m with Ok a => f a | Raise e => Raise e end.
#[global] Instance result_fmap : FMap result := fun A B f m =>
  match m with Ok a => Ok (f a) | Raise e => Raise e end.

Definition raise {A} (c : exc_class) (msg : string) : result A :=
  Raise (PyExc c msg).

(** [needle in hay] on strings *)
Fixpoint contains (needle hay : string) : bool :=
  String.prefix needle hay ||
  match hay with
  | EmptyString => false
  | String _ rest => contains needle rest
  end.

(** *** Truth value and type names *)

Definition is_zero (f : spec_float) : bool :=
  match f with S754_zero _ => true | _ => false end.

Definition truthy (v : pyval) : bool :=
  match v with
  | VNone => false
  | VBool b => b
  | VInt z => negb (z =? 0)
  | VFloat f => negb (is_zero f)
  | VStr s => negb (String.eqb s "")
  end.

(** [a or b] *)
Definition py_or (a b : pyval) : pyval := if truthy a then a else b.

Definition type_name (v : pyval) : string :=
  match v with
  | VNone => "NoneType"
  | VBool _ => "bool"
  | VInt _ => "int"
  | VFloat _ => "float"
  | VStr _ => "str"
  end.

(** *** Numbers: unbounded integers and binary64 floats *)

Definition prec : Z := 53.
Definition emax : Z := 1024.

Definition fadd := SFadd prec emax.
Definition fsub := SFsub prec emax.
Definition fmul := SFmul prec emax.
Definition fdiv := SFdiv prec emax.

(** The integer [z] as a (possibly unnormalised) mantissa with exponent 0:
    exact, whatever the size of [z]. *)
Definition exact_Z (z : Z) : spec_float :=
  match z with
  | Z0 => S754_zero false
  | Zpos p => S754_finite false p 0
  | Zneg p => S754_finite true p 0
  end.

(** [float(z)]: the nearest binary64 number, ties to even. *)
Definition float_of_Z (z : Z) : spec_float := binary_normalize prec emax z 0 false.

(** A decimal literal [n / 10^k], as Python reads it (nearest binary64). *)
Definition decimal (n : Z) (k : nat) : spec_float :=
  fdiv (exact_Z n) (exact_Z (10 ^ Z.of_nat k)).

Definition is_inf (f : spec_float) : bool :=
  match f with S754_infinity _ => true | _ => false end.

Inductive num := NInt (z : Z) | NFloat (f : spec_float).

(** bool is a subclass of int *)
Definition as_num (v : pyval) : option num :=
  match v with
  | VBool b => Some (NInt (Z.b2z b))
  | VInt z => Some (NInt z)
  | VFloat f => Some (NFloat f)
  | _ => None
  end.

Definition to_float (n : num) : result spec_float :=
  match n with
  | NFloat f => Ok f
  | NInt z =>
      let f := float_of_Z z in
      if is_inf f then raise OverflowError "int too large to convert to float"
      else Ok f
  end.

(** Exact comparison of numbers: a finite number is [m * 2^e]. *)
Inductive xreal := XNan | XInf (neg : bool) | XDyadic (m e : Z).

Definition xreal_of_float (f : spec_float) : xreal :=
  match f with
  | S754_nan => XNan
  | S754_infinity s => XInf s
  | S754_zero _ => XDyadic 0 0
  | S754_finite s m e => XDyadic (if s then Zneg m else Zpos m) e
  end.

Definition xreal_of (n : num) : xreal :=
  match n with
  | NInt z => XDyadic z 0
  | NFloat f => xreal_of_float f
  end.

Definition xcompare (a b : xreal) : option comparison :=
  match a, b with
  | XNan, _ | _, XNan => None
  | XInf s1, XInf s2 =>
      Some (match s1, s2 with
            | true, false => Lt | false, true => Gt | _, _ => Eq end)
  | XInf s, _ => Some (if s then Lt else Gt)
  | _, XInf s => Some (if s then Gt else Lt)
  | XDyadic m1 e1, XDyadic m2 e2 =>
      let e := Z.min e1 e2 in
      Some (Z.compare (m1 * 2 ^ (e1 - e)) (m2 * 2 ^ (e2 - e)))
  end.

Definition num_compare (a b : num) : option comparison :=
  xcompare (xreal_of a) (xreal_of b).

(** [a == b] *)
Definition py_eq (a b : pyval) : bool :=
  match as_num a, as_num b with
  | Some x, Some y =>
      match num_compare x y with Some Eq => true | _ => false end
  | _, _ =>
      match a, b with
      | VNone, VNone => true
      | VStr s, VStr t => String.eqb s t
      | _, _ => false
      end
  end.

(** [a != b] *)
Definition py_ne (a b : pyval) : bool := negb (py_eq a b).

Definition cmp_error {A} (sym : string) (a b : pyval) : result A :=
  raise TypeError ("'" ++ sym ++ "' not supported between instances of '"
                   ++ type_name a ++ "' and '" ++ type_name b ++ "'").

(** [a < b] *)
Definition py_lt (a b : pyval) : result bool :=
  match as_num a, as_num b with
  | Some x, Some y =>
      Ok (match num_compare x y with Some Lt => true | _ => false end)
  | _, _ =>
      match a, b with
      | VStr s, VStr t => Ok (String.ltb s t)
      | _, _ => cmp_error "<" a b
      end
  end.

(** [a > b] *)
Definition py_gt (a b : pyval) : result bool :=
  match as_num a, as_num b with
  | Some x, Some y =>
      Ok (match num_compare x y with Some Gt => true | _ => false end)
  | _, _ =>
      match a, b with
      | VStr s, VStr t => Ok (String.ltb t s)
      | _, _ => cmp_error ">" a b
      end
  end.

Definition operand_error {A} (sym : string) (a b : pyval) : result A :=
  raise TypeError ("unsupported operand type(s) for " ++ sym ++ ": '"
                   ++ type_name a ++ "' and '" ++ type_name b ++ "'").

(** [+], [-] and [*] on the numeric operands the program applies them to:
    integers stay exact, anything mixed with a float is computed in binary64.
    (Sequence concatenation and repetition do not occur in the program and
    are reported as the type error of the numeric case.) *)
Definition py_arith (sym : string) (iop : Z -> Z -> Z)
    (fop : spec_float -> spec_float -> spec_float) (a b : pyval) : result pyval :=
  match as_num a, as_num b with
  | Some (NInt x), Some (NInt y) => Ok (VInt (iop x y))
  | Some x, Some y =>
      fx ← to_float x; fy ← to_float y; Ok (VFloat (fop fx fy))
  | _, _ => operand_error sym a b
  end.

Definition py_add := py_arith "+" Z.add fadd.
Definition py_sub := py_arith "-" Z.sub fsub.
Definition py_mul := py_arith "*" Z.mul fmul.

(** [a / b]: true division, always a float; the quotient of two integers is
    rounded once, from the exact quotient. *)
Definition py_truediv (a b : pyval) : result pyval :=
  match as_num a, as_num b with
  | Some (NInt x), Some (NInt y) =>
      if y =? 0 then raise ZeroDivisionError "division by zero"
      else
        let q := fdiv (exact_Z x) (exact_Z y) in
        if is_inf q
        then raise OverflowError "integer division result too large for a float"
        else Ok (VFloat q)
  | Some x, Some y =>
      fx ← to_float x; fy ← to_float y;
      if is_zero fy then raise ZeroDivisionError "float division by zero"
      else Ok (VFloat (fdiv fx fy))
  | _, _ => operand_error "/" a b
  end.

(** The integer nearest to [a / b] for [b > 0], ties to even. *)
Definition div_half_even (a b : Z) : Z :=
  let q := a / b in
  let r := a mod b in
  match Z.compare (2 * r) b with
  | Lt => q
  | Gt => q + 1
  | Eq => if Z.even q then q else q + 1
  end.

(** [|m * 2^e| * 10^n] rounded to the nearest integer, ties to even, from the
    exact binary value. *)
Definition scaled_digits (n : nat) (m : positive) (e : Z) : Z :=
  let a := Zpos m * 10 ^ Z.of_nat n in
  if 0 <=? e then a * 2 ^ e else div_half_even a (2 ^ (- e)).

(** [round(x, n)] for [n >= 0]: an integer is returned unchanged; a float is
    rounded to [n] decimals from its exact value (ties to even) and the
    decimal is converted back to the nearest binary64 number. *)
Definition py_round (n : nat) (v : pyval) : result pyval :=
  match v with
  | VBool b => Ok (VInt (Z.b2z b))
  | VInt z => Ok (VInt z)
  | VFloat (S754_finite s m e) =>
      let k := scaled_digits n m e in
      let r := if k =? 0 then S754_zero s
               else fdiv (exact_Z (if s then - k else k)) (exact_Z (10 ^ Z.of_nat n)) in
      if is_inf r then raise OverflowError "rounded value too large to represent"
      else Ok (VFloat r)
  | VFloat f => Ok (VFloat f)
  | _ => raise TypeError ("type " ++ type_name v ++ " doesn't define __round__ method")
  end.

(** [s] left-padded with zeros to [n] characters *)
Definition zero_pad (n : nat) (s : string) : string :=
  Nat.iter (n - String.length s) (String "0"%char) s.

(** Fixed-point rendering with [n] decimals of a binary64 number. *)
Definition format_float (n : nat) (f : spec_float) : string :=
  match f with
  | S754_nan => "nan"
  | S754_infinity s => if s then "-inf" else "inf"
  | S754_zero s =>
      (if s then "-" else "") +:+ "0" +:+
      (if Nat.eqb n 0 then "" else "." +:+ zero_pad n "")
  | S754_finite s m e =>
      let k := scaled_digits n m e in
      let p := 10 ^ Z.of_nat n in
      (if s then "-" else "") +:+ pretty (k / p) +:+
      (if Nat.eqb n 0 then "" else "." +:+ zero_pad n (pretty (k mod p)))
  end.

(** [f"{v:.nf}"] *)
Definition py_format_f (n : nat) (v : pyval) : result string :=
  match as_num v with
  | Some x => f ← to_float x; Ok (format_float n f)
  | None =>
      match v with
      | VStr _ => raise ValueError "Unknown format code 'f' for object of type 'str'"
      | _ => raise TypeError
               ("unsupported format string passed to " ++ type_name v ++ ".__format__")
      end
  end.

(** [int(v)].  yt-dlp stores a number or [None] under [filesize]; parsing a
    numeric string is not modelled and reported as the error of a malformed
    literal. *)
Definition py_int (v : pyval) : result Z :=
  match v with
  | VBool b => Ok (Z.b2z b)
  | VInt z => Ok z
  | VFloat S754_nan => raise ValueError "cannot convert float NaN to integer"
  | VFloat (S754_infinity _) =>
      raise OverflowError "cannot convert float infinity to integer"
  | VFloat (S754_zero _) => Ok 0
  | VFloat (S754_finite s m e) =>
      let a := if 0 <=? e then Zpos m * 2 ^ e else Zpos m / 2 ^ (- e) in
      Ok (if s then - a else a)
  | VStr s => raise ValueError ("invalid literal for int() with base 10: '" ++ s ++ "'")
  | VNone =>
      raise TypeError
        "int() argument must be a string, a bytes-like object or a real number, not 'NoneType'"
  end.

(** What the interpreter supplies and the program only calls: the shortest
    round-trip rendering of a float, used by [str] and the f-strings. *)
Class Runtime := { float_repr : spec_float -> string }.

(** [str(v)], which is also [f"{v}"] *)
Definition py_str `{Runtime} (v : pyval) : string :=
  match v with
  | VNone => "None"
  | VBool b => if b then "True" else "False"
  | VInt z => pretty z
  | VFloat f => float_repr f
  | VStr s => s
  end.

End Py.

Import Py.

(** ** The download directory *)

Module OS.

(** A regular file; only its modification time is observed. *)
Record file := File { mtime : spec_float }.

(** The file system as the program sees it: regular files by path.
    Directories are implicit and never listed. *)
Abbreviation filesystem := (gmap string file).

(** [os.path.join(a, b)] on POSIX *)
Definition path_join (a b : string) : string :=
  if String.prefix "/" b then b
  else if String.eqb a "" || String.prefix "/" (String.rev a) then a +:+ b
  else a +:+ "/" +:+ b.

(** [os.path.exists(p)] *)
Definition path_exists (fs : filesystem) (p : string) : bool :=
  bool_decide (is_Some (fs !! p)).

Fixpoint drop_chars (n : nat) (s : string) : string :=
  match n, s with
  | S n, String _ s => drop_chars n s
  | _, _ => s
  end.

(** [os.listdir(dir)]: the names of the files directly inside [dir]. *)
Definition listdir (fs : filesystem) (dir : string) : list string :=
  let pre := dir +:+ "/" in
  omap (fun p : string =>
          let name := drop_chars (String.length pre) p in
          if String.prefix pre p && negb (String.eqb name "")
             && negb (contains "/" name)
          then Some name else None)
       (map_to_list fs).*1.

(** Shell-style matching of a name against a pattern with [*] and [?].
    Bracket classes are not modelled: the patterns of the program are built
    from job identifiers, which are decimal numerals. *)
Fixpoint fnmatch (pat : list ascii) : list ascii -> bool :=
  match pat with
  | [] => fun name => match name with [] => true | _ => false end
  | c :: pat' =>
      if Ascii.eqb c "*" then
        fix star (name : list ascii) : bool :=
          fnmatch pat' name ||
          match name with [] => false | _ :: name' => star name' end
      else fun name =>
        match name with
        | [] => false
        | d :: name' => (Ascii.eqb c "?" || Ascii.eqb c d) && fnmatch pat' name'
        end
  end.

(** [glob.glob(os.path.join(dir, pattern))] for a pattern without a
    directory part; names starting with a dot match only patterns that do. *)
Definition glob (fs : filesystem) (dir pattern : string) : list string :=
  path_join dir <$>
    filter (fun name : string =>
              fnmatch (list_ascii_of_string pattern) (list_ascii_of_string name)
              && (negb (String.prefix "." name) || String.prefix "." pattern) = true)
           (listdir fs dir).

End OS.

Import OS.

(** ** Global state and the monad of the handlers *)

(** A [subprocess.Popen] handle of the encoder. *)
Record Popen := { pid : Z }.

(** The module-level dictionaries of [main.py] (lines 20-23) and the files
    of the download directory.  The thread objects kept in
    [download_threads] are never inspected, so only its keys are kept. *)
Record World := {
  download_progress : gmap string dict;
  download_processes : gmap string Popen;
  download_threads : gset string;
  download_cancel_flags : gmap string bool;
  files : filesystem;
}.

Definition set_progress (f : gmap string dict -> gmap string dict) (w : World) : World :=
  {| download_progress := f (download_progress w);
     download_processes := download_processes w;
     download_threads := download_threads w;
     download_cancel_flags := download_cancel_flags w;
     files := files w |}.
Definition set_processes (f : gmap string Popen -> gmap string Popen) (w : World) : World :=
  {| download_progress := download_progress w;
     download_processes := f (download_processes w);
     download_threads := download_threads w;
     download_cancel_flags := download_cancel_flags w;
     files := files w |}.
Definition set_threads (f : gset string -> gset string) (w : World) : World :=
  {| download_progress := download_progress w;
     download_processes := download_processes w;
     download_threads := f (download_threads w);
     download_cancel_flags := download_cancel_flags w;
     files := files w |}.
Definition set_cancel_flags (f : gmap string bool -> gmap string bool) (w : World) : World :=
  {| download_progress := download_progress w;
     download_processes := download_processes w;
     download_threads := download_threads w;
     download_cancel_flags := f (download_cancel_flags w);
     files := files w |}.
Definition set_files (f : filesystem -> filesystem) (w : World) : World :=
  {| download_progress := download_progress w;
     download_processes := download_processes w;
     download_threads := download_threads w;
     download_cancel_flags := download_cancel_flags w;
     files := f (files w) |}.

(** Stateful code that may raise: the state survives the exception, as the
    mutations of a Python function do. *)
Definition ST (S A : Type) : Type := S -> S * result A.

#[global] Instance ST_ret {S} : MRet (ST S) := fun A a s => (s, Ok a).
#[global] Instance ST_bind {S} : MBind (ST S) := fun A B f m s =>
  match m s with
  | (s', Ok a) => f a s'
  | (s', Raise e) => (s', Raise e)
  end.

Section ST.
Context {S : Type}.

Definition get_state : ST S S := fun s => (s, Ok s).
Definition modify (f : S -> S) : ST S unit := fun s => (f s, Ok tt).
Definition lift {A} (r : result A) : ST S A := fun s => (s, r).
Definition throw {A} (e : pyexc) : ST S A := lift (Raise e).
Definition pass : ST S unit := mret tt.

(** [try: body / except Exception as e: handler] *)
Definition try_except {A} (body : ST S A) (handler : pyexc -> ST S A) : ST S A :=
  fun s =>
    match body s with
    | (s', Ok a) => (s', Ok a)
    | (s', Raise e) => handler e s'
    end.

(** [try: body / finally: cleanup] *)
Definition try_finally {A} (body : ST S A) (cleanup : ST S unit) : ST S A :=
  fun s =>
    match body s with
    | (s', r) =>
        match cleanup s' with
        | (s'', Ok _) => (s'', r)
        | (s'', Raise e) => (s'', Raise e)
        end
    end.

(** [if c: body] *)
Definition when (c : bool) (body : ST S unit) : ST S unit :=
  if c then body else pass.

(** [for x in xs: body] *)
Fixpoint for_each {A} (xs : list A) (body : A -> ST S unit) : ST S unit :=
  match xs with
  | [] => pass
  | x :: xs' => body x;; for_each xs' body
  end.
End ST.

Abbreviation M := (ST World).

Definition final_state {S A} (r : S * result A) : S := r.1.
Definition outcome_of {S A} (r : S * result A) : result A := r.2.

(** ** The registry *)

Definition DOWNLOAD_FOLDER : string := "downloads".

(** The text of every cancellation exception the program raises. *)
Definition CANCEL_MESSAGE : string := "Descarga cancelada por el usuario".

(** [repr(s)] of a string without quotes or escapes, as [str(KeyError(s))]
    shows it. *)
Definition py_repr (s : string) : string := "'" +:+ s +:+ "'".

(** [video_id in download_progress] *)
Definition registered (video_id : string) : M bool :=
  w ← get_state; mret (bool_decide (is_Some (download_progress w !! video_id))).

(** [download_progress[video_id]] *)
Definition job (video_id : string) : M dict :=
  w ← get_state;
  match download_progress w !! video_id with
  | Some d => mret d
  | None => throw (PyExc KeyError (py_repr video_id))
  end.

(** [download_progress[video_id].update({...})] *)
Definition job_update (video_id : string) (kvs : list (string * pyval)) : M unit :=
  d ← job video_id;
  modify (set_progress <[video_id := update kvs d]>).

(** [download_progress[video_id][k] = v] *)
Definition job_set (video_id k : string) (v : pyval) : M unit :=
  job_update video_id [(k, v)].

(** [download_progress[video_id].get("status") == s], for a registered job *)
Definition status_is (video_id s : string) : M bool :=
  d ← job video_id; mret (py_eq (get d "status") (VStr s)).

(** [video_id in download_cancel_flags and download_cancel_flags[video_id]] *)
Definition cancel_requested (video_id : string) : M bool :=
  w ← get_state;
  mret (match download_cancel_flags w !! video_id with
        | Some b => b
        | None => false
        end).

(** [os.remove(p)] *)
Definition os_remove (p : string) : M unit :=
  w ← get_state;
  if path_exists (files w) p then modify (set_files (delete p))
  else throw (PyExc Exception ("[Errno 2] No such file or directory: " +:+ py_repr p)).

(** [if os.path.exists(p): os.remove(p)] *)
Definition remove_if_exists (p : string) : M unit :=
  w ← get_state; when (path_exists (files w) p) (os_remove p).

(** What a handler returns: a JSON body or a file, with the HTTP status. *)
Inductive body :=
  | Json (d : dict)
  | Attachment (path mimetype download_name : string).

Record response := Response { status_code : Z; payload : body }.

Definition jsonify (code : Z) (kvs : list (string * pyval)) : response :=
  Response code (Json (mkdict kvs)).

(** ** Status polling (lines 523-528) *)

Definition get_progress (video_id : string) : M response :=
  w ← get_state;
  match download_progress w !! video_id with
  | Some d => mret (Response 200 (Json d))
  | None => mret (jsonify 200 [("status", VStr "not_found")])
  end.

(** ** Cancellation (lines 710-792) *)

(** Lines 727-746 signal the encoder and its children.  Their effect is on
    the operating system's process table, which is not part of the state
    modelled here, and line 747 catches whatever they raise. *)
Definition kill_process_tree (p : Popen) : M unit := pass.

Definition cancel_patterns (video_id : string) : list string :=
  [ "video_" +:+ video_id +:+ ".*";
    "audio_" +:+ video_id +:+ ".*";
    "temp_video_" +:+ video_id +:+ ".*";
    "temp_audio_" +:+ video_id +:+ ".*";
    video_id +:+ "_final.*";
    video_id +:+ "_temp.*" ].

(** Lines 726-750. *)
Definition terminate_process (video_id : string) : M unit :=
  w ← get_state;
  match download_processes w !! video_id with
  | Some process =>
      try_finally
        (try_except (kill_process_tree process) (fun _ => pass))
        (modify (set_processes (delete video_id)))
  | None => pass
  end.

(** Lines 753-772. *)
Definition remove_partial_files (video_id : string) : M unit :=
  try_except
    (for_each (cancel_patterns video_id) (fun pattern =>
       w ← get_state;
       for_each (glob (files w) DOWNLOAD_FOLDER pattern) (fun file =>
         try_except (os_remove file) (fun _ => pass))))
    (fun _ => pass).

Definition cancel_download (video_id : string) : M response :=
  try_except
    (known ← registered video_id;
     if negb known
     then mret (jsonify 404 [("success", VBool false);
                             ("error", VStr "Descarga no encontrada")])
     else
       modify (set_cancel_flags <[video_id := true]>);;
       job_update video_id [("status", VStr "cancelling");
                            ("progress", VInt 0);
                            ("error", VStr "Cancelando descarga...")];;
       terminate_process video_id;;
       remove_partial_files video_id;;
       job_update video_id [("status", VStr "cancelled");
                            ("progress", VInt 0);
                            ("error", VStr CANCEL_MESSAGE)];;
       w ← get_state;
       when (bool_decide (video_id ∈ download_threads w))
            (modify (set_threads (fun t => t ∖ {[video_id]})));;
       mret (jsonify 200 [("success", VBool true);
                          ("message", VStr "Descarga cancelada");
                          ("status", VStr "cancelled")]))
    (fun e => mret (jsonify 500 [("success", VBool false);
                                 ("error", VStr (exc_msg e))])).

(** ** Retention sweeper (lines 796-827) *)

Definition TERMINAL : list pyval :=
  [VStr "completed"; VStr "error"; VStr "cancelled"].

(** [v in xs] for a list: some element equals [v] *)
Definition py_in_list (v : pyval) (xs : list pyval) : bool :=
  existsb (py_eq v) xs.

(** [os.path.getmtime(p)] *)
Definition getmtime (p : string) : M pyval :=
  w ← get_state;
  match files w !! p with
  | Some f => mret (VFloat (mtime f))
  | None => throw (PyExc Exception ("[Errno 2] No such file or directory: " +:+ py_repr p))
  end.

(** Lines 803-808, for one name of the listing. *)
Definition sweep_file (current_time : spec_float) (filename : string) : M unit :=
  let filepath := path_join DOWNLOAD_FOLDER filename in
  m ← getmtime filepath;
  limit ← lift (py_sub (VFloat current_time) (VInt 3600));
  old ← lift (py_lt m limit);
  when old (try_except (os_remove filepath) (fun _ => pass)).

(** Lines 802-808: files last modified more than an hour before
    [current_time] are removed. *)
Definition sweep_files (current_time : spec_float) : M unit :=
  w ← get_state;
  for_each (listdir (files w) DOWNLOAD_FOLDER) (sweep_file current_time).

(** Lines 813-824, for one identifier of the snapshot taken at line 811. *)
Definition sweep_job (video_id : string) : M unit :=
  known ← registered video_id;
  when known
    (d ← job video_id;
     let status := get d "status" in
     when (py_in_list status TERMINAL)
       (known ← registered video_id;
        when known (modify (set_progress (delete video_id)));;
        w ← get_state;
        when (bool_decide (is_Some (download_processes w !! video_id)))
             (modify (set_processes (delete video_id)));;
        when (bool_decide (video_id ∈ download_threads w))
             (modify (set_threads (fun t => t ∖ {[video_id]})));;
        when (bool_decide (is_Some (download_cancel_flags w !! video_id)))
             (modify (set_cancel_flags (delete video_id))))).

(** One cycle; [current_time] is the value of [time.time()] at line 799. *)
Definition cleanup_downloads (current_time : spec_float) : M unit :=
  try_except
    (sweep_files current_time;;
     w ← get_state;
     let video_ids := (map_to_list (download_progress w)).*1 in
     for_each video_ids sweep_job)
    (fun _ => pass).

(** ** What other threads do while a worker runs *)

(** A request served by another thread between two steps of a worker. *)
Inductive request :=
  | ReqCancel (video_id : string)
  | ReqSweep (current_time : spec_float).

Definition serve (r : request) : M unit :=
  match r with
  | ReqCancel video_id => cancel_download video_id;; pass
  | ReqSweep t => cleanup_downloads t
  end.

(** ** The progress hook (lines 26-97) *)

Record ProgressHook := {
  video_id : string;
  stage : string;
  start_time : spec_float;
}.

(** [d[k]] *)
Definition getitem (d : dict) (k : string) : result pyval :=
  match d !! k with
  | Some v => Ok v
  | None => raise KeyError (py_repr k)
  end.

(** Line 38 and line 79. *)
Definition raise_cancelled {A} : M A := throw (PyExc Exception CANCEL_MESSAGE).

(** The telemetry of lines 42-71, in evaluation order; the job's dictionary
    is looked up before the values of the update are computed. *)
Definition progress_update (self : ProgressHook) (total downloaded speed : pyval)
    (now : spec_float) : M unit :=
  ratio ← lift (py_truediv downloaded total);
  progress ← lift (py_mul ratio (VInt 100));
  elapsed_time ← lift (py_sub (VFloat now) (VFloat (start_time self)));
  moving ← lift (py_gt speed (VInt 0));
  eta ← (if moving : bool
         then left ← lift (py_sub total downloaded); lift (py_truediv left speed)
         else mret (VInt 0));
  let base_progress :=
    if String.eqb (stage self) "video" then VInt 0
    else if String.eqb (stage self) "audio" then VInt 45
    else VInt 90 in
  weighted ← lift (if negb (String.eqb (stage self) "merging")
                   then py_mul progress (VFloat (decimal 45 2))
                   else py_mul progress (VFloat (decimal 1 1)));
  adjusted_progress ← lift (py_add base_progress weighted);
  d ← job (video_id self);
  shown ← lift (py_round 2 adjusted_progress);
  mb ← lift (x ← py_truediv speed (VInt 1024); py_truediv x (VInt 1024));
  speed_s ← lift (py_format_f 2 mb);
  elapsed ← lift (py_round 2 elapsed_time);
  eta_r ← lift (py_round 2 eta);
  dmb ← lift (x ← py_truediv downloaded (VInt 1024); py_truediv x (VInt 1024));
  down_s ← lift (py_format_f 2 dmb);
  tmb ← lift (x ← py_truediv total (VInt 1024); py_truediv x (VInt 1024));
  total_s ← lift (py_format_f 2 tmb);
  modify (set_progress <[video_id self := update
    [ ("status", VStr (stage self +:+ "_downloading"));
      ("progress", shown);
      ("speed", VStr (speed_s +:+ " MB/s"));
      ("elapsed", elapsed);
      ("eta", eta_r);
      ("size_downloaded", VStr (down_s +:+ "MB"));
      ("size_total", VStr (total_s +:+ "MB")) ] d]>).

(** Lines 42-44. *)
Definition event_total (d : dict) : pyval :=
  py_or (get_default d "total_bytes" (VInt 0))
        (get_default d "total_bytes_estimate" (VInt 0)).
Definition event_downloaded (d : dict) : pyval :=
  get_default d "downloaded_bytes" (VInt 0).
Definition event_speed (d : dict) : pyval := get_default d "speed" (VInt 0).

(** [ProgressHook.__call__(self, d)].  [now] is the value of [time.time()]
    at line 47; [racing] are the requests other threads complete after the
    update of lines 62-72 and before the re-check of line 75. *)
Definition ProgressHook_call (self : ProgressHook) (d : dict) (now : spec_float)
    (racing : list request) : M unit :=
  cancelled ← cancel_requested (video_id self);
  if cancelled : bool then raise_cancelled
  else
    status ← lift (getitem d "status");
    if py_eq status (VStr "downloading") then
      try_except
        (let total := event_total d in
         let downloaded := event_downloaded d in
         let speed := event_speed d in
         when (truthy total && truthy downloaded)
           (progress_update self total downloaded speed now;;
            for_each racing serve;;
            cancelled ← cancel_requested (video_id self);
            if cancelled : bool then raise_cancelled else pass))
        (fun e =>
           if contains "cancelled" (exc_msg e) then throw e
           else pass)
    else if py_eq status (VStr "finished") then
      if String.eqb (stage self) "video" then
        job_set (video_id self) "status" (VStr "downloading_audio")
      else if String.eqb (stage self) "audio" then
        job_set (video_id self) "status" (VStr "merging");;
        job_set (video_id self) "progress" (VInt 90)
      else
        job_set (video_id self) "status" (VStr "completed");;
        job_set (video_id self) "progress" (VInt 100)
    else if py_eq status (VStr "error") then
      job_set (video_id self) "status" (VStr "error")
    else pass.

(** ** The external tools, as scripts *)

(** What happens around a worker while an external tool runs: another
    thread completes a request, or the tool writes a file. *)
Inductive env_step :=
  | Concurrent (r : request)
  | WriteFile (path : string) (f : file).

Definition run_env (s : env_step) : M unit :=
  match s with
  | Concurrent r => serve r
  | WriteFile path f => modify (set_files <[path := f]>)
  end.

(** One step of a yt-dlp call: it reports an event to the progress hook, or
    something happens around it. *)
Inductive adapter_step :=
  | HookEvent (d : dict) (now : spec_float) (racing : list request)
  | Around (s : env_step).

(** One call of [YoutubeDL.extract_info(url, download=True)] or
    [YoutubeDL.download]: when the hook object was built, what the call does,
    and how it ends when no hook call raises (the file name that
    [prepare_filename] gives, or the exception of the extractor). *)
Record adapter_run := {
  hook_created : spec_float;
  steps : list adapter_step;
  outcome : result string;
}.

(** yt-dlp hands an exception raised by a progress hook on to its caller. *)
Definition run_adapter (self : ProgressHook) (run : adapter_run) : M string :=
  for_each (steps run) (fun s =>
    match s with
    | HookEvent d now racing => ProgressHook_call self d now racing
    | Around e => run_env e
    end);;
  lift (outcome run).

(** One run of the encoder: [Popen] at line 438/445 gives a process or
    raises, [communicate] at line 455 waits for it. *)
Record encoder_run := {
  started : result Z;
  during : list env_step;
  returncode : Z;
  stderr : string;
}.

(** ** Two-stream download and merge (lines 341-509) *)

(** The local variables that the [finally] block reads. *)
Record Locals := { video_path : option string; audio_path : option string }.

Definition in_world {L A} (m : M A) : ST (World * L) A :=
  fun s => let '(w', r) := m s.1 in ((w', s.2), r).

Definition set_local {L} (f : L -> L) : ST (World * L) unit :=
  modify (fun s => (s.1, f s.2)).

(** Lines 366-370 and 392-396. *)
Definition check_cancelled_status (video_id : string) : M unit :=
  known ← registered video_id;
  if known : bool then
    c ← status_is video_id "cancelled";
    if c : bool then raise_cancelled else pass
  else pass.

(** Lines 372-378 and 398-404. *)
Definition stage_failed {A} (video_id label : string) (e : pyexc) : M A :=
  when (negb (contains "cancelled" (exc_msg e)))
    (job_set video_id "status" (VStr "error");;
     job_set video_id "error" (VStr (label +:+ exc_msg e)));;
  throw e.

(** The URL, the format selectors, the output path and the encoder's command
    line only parameterise the external tools, whose behaviour the three
    scripts give. *)
Definition download_and_merge (video_id : string)
    (video audio : adapter_run) (encoder : encoder_run) : M bool :=
  fun w =>
    let body : ST (World * Locals) bool :=
      try_finally
        (try_except
           ((* lines 355-378 *)
            try_except
              (p ← in_world (run_adapter
                     {| video_id := video_id; stage := "video";
                        start_time := hook_created video |} video);
               set_local (fun l => {| video_path := Some p; audio_path := audio_path l |});;
               in_world (check_cancelled_status video_id))
              (fun e => in_world (stage_failed video_id "Error descargando video: " e));;
            (* lines 381-404 *)
            try_except
              (p ← in_world (run_adapter
                     {| video_id := video_id; stage := "audio";
                        start_time := hook_created audio |} audio);
               set_local (fun l => {| video_path := video_path l; audio_path := Some p |});;
               in_world (check_cancelled_status video_id))
              (fun e => in_world (stage_failed video_id "Error descargando audio: " e));;
            in_world
              ((* line 407 *)
               job_update video_id [("status", VStr "merging"); ("progress", VInt 90)];;
               (* lines 438-455 *)
               process ← lift (started encoder);
               modify (set_processes <[video_id := {| pid := process |}]>);;
               for_each (during encoder) run_env;;
               (* lines 458-473 *)
               known ← registered video_id;
               cancelled ← (if known : bool then status_is video_id "cancelled"
                            else mret false);
               if known && (cancelled || negb (returncode encoder =? 0)) then
                 let error_msg :=
                   if cancelled then CANCEL_MESSAGE
                   else "Error en FFmpeg: " +:+ stderr encoder in
                 when (negb (contains "cancelled" error_msg))
                   (job_set video_id "status" (VStr "error");;
                    job_set video_id "error" (VStr error_msg));;
                 throw (PyExc Exception error_msg)
               else
                 (* lines 476-482 *)
                 modify (set_processes (delete video_id));;
                 job_update video_id [("status", VStr "completed"); ("progress", VInt 100)];;
                 mret true))
           (* lines 484-488 *)
           (fun e =>
              in_world
                (known ← registered video_id;
                 when (negb (contains "cancelled" (exc_msg e)) && known)
                   (job_set video_id "status" (VStr "error");;
                    job_set video_id "error" (VStr (exc_msg e)));;
                 throw e)))
        (* lines 490-509 *)
        (s ← get_state;
         match video_path s.2 with
         | Some p => in_world (try_except (remove_if_exists p) (fun _ => pass))
         | None => pass
         end;;
         match audio_path s.2 with
         | Some p => in_world (try_except (remove_if_exists p) (fun _ => pass))
         | None => pass
         end;;
         in_world (modify (set_processes (delete video_id)))) in
    let '(s, r) := body (w, {| video_path := None; audio_path := None |}) in
    (s.1, r).

(** ** Job submission (lines 531-651) *)

(** What [extract_info(url, download=False)] returns, as far as the handler
    reads it: the scalar fields and the [formats] list, when present. *)
Record Info := { info_fields : dict; info_formats : option (list dict) }.

(** The variables that the closure [download_thread] captures. *)
Record Job := {
  job_id : string;
  is_audio_only : bool;
  temp_path : string;
  final_path : string;
}.

(** [{}] is false, every other dictionary is true. *)
Definition dict_truthy (d : dict) : bool := negb (bool_decide (d = ∅)).

(** Lines 549-553 (and 311-317): the first format whose [format_id] equals
    [itag]. *)
Definition find_format (formats : list dict) (itag : pyval) : option dict :=
  List.find (fun f => py_eq (get f "format_id") itag) formats.

(** Line 541: [f"{int(time.time())}"] *)
Definition new_video_id (now : spec_float) : result string :=
  n ← py_int (VFloat now); Ok (pretty n).

(** [data] is the JSON body of the request when that body is an object
    (a body that is another JSON value is outside the embedding: line 536
    answers 400 for a falsy one and otherwise tests membership in it or
    raises), [now] the clock at line 541 and [info] the answer of the extractor
    at line 545.  The handler returns its response and, when it started a
    worker, what that worker captured. *)
Definition download (data : dict) (now : spec_float) (info : result Info)
    : M (response * option Job) :=
  try_except
    (if negb (dict_truthy data)
        || negb (bool_decide (is_Some (data !! "url")))
        || negb (bool_decide (is_Some (data !! "itag")))
     then mret (jsonify 400 [("success", VBool false);
                             ("error", VStr "Datos incompletos")], None)
     else
       itag ← lift (getitem data "itag");
       video_id ← lift (new_video_id now);
       info ← lift info;
       formats ← lift (match info_formats info with
                       | Some fs => Ok fs
                       | None => raise KeyError (py_repr "formats")
                       end);
       let selected_format := find_format formats itag in
       let audio_only :=
         match selected_format with
         | Some f => dict_truthy f && py_eq (get f "vcodec") (VStr "none")
         | None => false
         end in
       j ← (if audio_only then
              let final := path_join DOWNLOAD_FOLDER (video_id +:+ "_final.mp3") in
              let temp := path_join DOWNLOAD_FOLDER (video_id +:+ "_temp") in
              modify (set_progress <[video_id := mkdict
                [ ("status", VStr "starting");
                  ("progress", VInt 0);
                  ("is_audio", VBool true);
                  ("title", get_default (info_fields info) "title" (VStr ""));
                  ("final_path", VStr final) ]]>);;
              mret {| job_id := video_id; is_audio_only := true;
                      temp_path := temp; final_path := final |}
            else
              let output_path := path_join DOWNLOAD_FOLDER ("video_" +:+ video_id +:+ ".mp4") in
              match selected_format with
              | None => throw (PyExc AttributeError
                                 "'NoneType' object has no attribute 'get'")
              | Some _ => pass
              end;;
              modify (set_progress <[video_id := mkdict
                [ ("status", VStr "starting");
                  ("progress", VInt 0);
                  ("is_audio", VBool false);
                  ("final_path", VStr output_path) ]]>);;
              mret {| job_id := video_id; is_audio_only := false;
                      temp_path := ""; final_path := output_path |});
       modify (set_threads (fun t => {[video_id]} ∪ t));;
       mret (jsonify 200 [("success", VBool true);
                          ("message", VStr "Descarga iniciada");
                          ("video_id", VStr video_id)], Some j))
    (fun e => mret (jsonify 500 [("success", VBool false);
                                 ("error", VStr (exc_msg e))], None)).

(** [shutil.move(src, dst)] of a regular file *)
Definition shutil_move (src dst : string) : M unit :=
  w ← get_state;
  match files w !! src with
  | Some f => modify (set_files (fun fs => <[dst := f]> (delete src fs)))
  | None => throw (PyExc Exception ("[Errno 2] No such file or directory: " +:+ py_repr src))
  end.

(** The worker of a submitted job (lines 622-640); [run] is what the call
    [ydl.download([url])] does. *)
Definition download_thread (j : Job) (run : adapter_run) : M unit :=
  try_except
    (run_adapter {| video_id := job_id j; stage := "video";
                    start_time := hook_created run |} run;;
     when (is_audio_only j)
       (let temp_mp3 := temp_path j +:+ ".mp3" in
        w ← get_state;
        when (path_exists (files w) temp_mp3) (shutil_move temp_mp3 (final_path j)));;
     job_update (job_id j) [("status", VStr "completed"); ("progress", VInt 100)])
    (fun e =>
       job_update (job_id j) [("status", VStr "error"); ("error", VStr (exc_msg e))]).

(** ** Artifact delivery (lines 654-707) *)

(** [c.isalnum()] on the ASCII characters of a title *)
Definition isalnum (c : ascii) : bool :=
  let n := nat_of_ascii c in
  ((48 <=? n) && (n <=? 57) || (65 <=? n) && (n <=? 90) || (97 <=? n) && (n <=? 122))%nat.

Definition kept_in_title (c : ascii) : bool :=
  isalnum c || existsb (Ascii.eqb c) [" "; "-"; "_"; "|"; "."]%char.

Fixpoint drop_spaces (l : list ascii) : list ascii :=
  match l with
  | c :: l' => if Ascii.eqb c " " then drop_spaces l' else l
  | [] => []
  end.

(** [s.rstrip()] where only spaces can be trailing white space *)
Definition rstrip (s : string) : string :=
  string_of_list_ascii (rev (drop_spaces (rev (list_ascii_of_string s)))).

(** Lines 669-673: iterating over the title fails unless it is a string. *)
Definition safe_title (title : pyval) : result string :=
  match title with
  | VStr s =>
      Ok (rstrip (string_of_list_ascii
                    (List.filter kept_in_title (list_ascii_of_string s))))
  | _ => raise TypeError ("'" +:+ type_name title +:+ "' object is not iterable")
  end.

Definition get_video (video_id : string) : M response :=
  try_except
    (w ← get_state;
     match download_progress w !! video_id with
     | None => mret (jsonify 404 [("error", VStr "Archivo no encontrado")])
     | Some d =>
         status ← lift (getitem d "status");
         if py_ne status (VStr "completed")
         then mret (jsonify 400 [("error", VStr "Archivo aún no completado")])
         else
           let final_path := get d "final_path" in
           if negb (truthy final_path)
           then mret (jsonify 404 [("error", VStr "Archivo no encontrado")])
           else
             match final_path with
             | VStr path =>
                 if negb (path_exists (files w) path)
                 then mret (jsonify 404 [("error", VStr "Archivo no encontrado")])
                 else
                   title ← lift (safe_title (get_default d "title" (VStr "download")));
                   let is_audio := truthy (get_default d "is_audio" (VBool false)) in
                   let extension := if is_audio then ".mp3" else ".mp4" in
                   let mimetype := if is_audio then "audio/mpeg" else "video/mp4" in
                   mret (Response 200
                           (Attachment path mimetype
                              ("Angel Downloader | " +:+ title +:+ extension)))
             | _ =>
                 (* the program stores only strings under final_path *)
                 throw (PyExc TypeError
                          "stat: path should be string, bytes, os.PathLike or integer")
             end
     end)
    (fun e => mret (jsonify 500 [("error", VStr (exc_msg e))])).

(** The suffixes of line 697. *)
Definition TEMP_SUFFIXES : list string :=
  [".mp3"; ".webm"; ".m4a"; "_temp"; "_temp.mp3"; ".mp4"].

(** The callback that runs when the response stream is closed
    (lines 690-702). *)
Definition on_close (final_path video_id : string) : M unit :=
  try_except
    (remove_if_exists final_path;;
     let base_path := path_join DOWNLOAD_FOLDER video_id in
     for_each TEMP_SUFFIXES (fun ext => remove_if_exists (base_path +:+ ext)))
    (fun _ => pass).

(** ** Formats (lines 110-115, 170-219, 289-338) *)

(** [[f(x) for x in l]] when [f] may raise *)
Fixpoint traverse {A B} (f : A -> result B) (l : list A) : result (list B) :=
  match l with
  | [] => Ok []
  | x :: l' => y ← f x; ys ← traverse f l'; Ok (y :: ys)
  end.

Fixpoint format_size_loop (units : list string) (bytes : pyval) : result string :=
  match units with
  | [] => s ← py_format_f 1 bytes; Ok (s +:+ "TB")
  | unit :: units' =>
      small ← py_lt bytes (VInt 1024);
      if small : bool then s ← py_format_f 1 bytes; Ok (s +:+ unit)
      else bytes' ← py_truediv bytes (VInt 1024); format_size_loop units' bytes'
  end.

Definition format_size (bytes : pyval) : result string :=
  format_size_loop ["B"; "KB"; "MB"; "GB"] bytes.

(** The key of lines 165, 213 and 305: [int(size) if size else 0] *)
Definition size_key (size : pyval) : result Z :=
  if truthy size then py_int size else Ok 0.

(** The filter of lines 291-297. *)
Definition is_audio_stream (f : dict) : bool :=
  py_ne (get_default f "acodec" (VStr "none")) (VStr "none")
  && py_eq (get f "vcodec") (VStr "none")
  && truthy (get f "format_id").

(** [max(xs, key=...)] over elements paired with their keys: the first
    element whose key is largest. *)
Fixpoint max_by {A} (best : Z * A) (rest : list (Z * A)) : A :=
  match rest with
  | [] => best.2
  | x :: rest' => if best.1 <? x.1 then max_by x rest' else max_by best rest'
  end.

Definition filesize_key (f : dict) : result Z :=
  size_key (get_default f "filesize" (VInt 0)).

Definition get_best_audio_for_format (formats : list dict) (video_format : dict)
    : result (option dict) :=
  let audio_formats := List.filter is_audio_stream formats in
  match audio_formats with
  | [] => Ok None
  | _ =>
      keyed ← traverse (fun f => k ← filesize_key f; Ok (k, f)) audio_formats;
      match keyed with
      | [] => Ok None
      | first :: rest => Ok (Some (max_by first rest))
      end
  end.

(** The comparison of two sort keys [(size, fps)], as tuples compare: the
    first components decide unless they are equal. *)
Definition key_lt (a b : Z * pyval) : result bool :=
  if a.1 =? b.1 then
    if py_eq a.2 b.2 then Ok false else py_lt a.2 b.2
  else Ok (a.1 <? b.1).

Definition key_ltb (a b : Z * pyval) : bool :=
  match key_lt a b with Ok true => true | _ => false end.

(** Insertion into a list that is in descending order; an element goes in
    front of the first one that is not larger. *)
Fixpoint insert_desc {A} (x : (Z * pyval) * A) (l : list ((Z * pyval) * A))
    : list ((Z * pyval) * A) :=
  match l with
  | [] => [x]
  | y :: l' => if key_ltb x.1 y.1 then y :: insert_desc x l' else x :: l
  end.

(** [l.sort(key=..., reverse=True)]: stable, descending.  Which pairs
    CPython compares depends on its merge strategy; the embedding raises the
    comparison's [TypeError] as soon as any two keys of the list cannot be
    compared, and otherwise returns the stable descending order. *)
Definition sort_desc {A} (key : A -> result (Z * pyval)) (l : list A) : result (list A) :=
  keyed ← traverse (fun x => k ← key x; Ok (k, x)) l;
  _ ← traverse (fun a => traverse (fun b => key_lt a.1 b.1) keyed) keyed;
  Ok (foldr insert_desc [] keyed).*2.

Section Formats.
Context `{Runtime}.

(** Lines 177-191. *)
Definition format_info (f : dict) : result dict :=
  let filesize := get f "filesize" in
  size ← (if truthy filesize
          then s ← format_size (get_default f "filesize" (VInt 0)); Ok (VStr s)
          else Ok (VStr "N/A"));
  Ok (mkdict
    [ ("itag", get f "format_id");
      ("quality", if truthy (get f "resolution")
                  then get_default f "resolution" (VStr "N/A")
                  else get_default f "format_note" (VStr "N/A"));
      ("container", get_default f "ext" (VStr ""));
      ("size", size);
      ("raw_size", get_default f "filesize" (VInt 0));
      ("vcodec", get_default f "vcodec" (VStr "none"));
      ("acodec", get_default f "acodec" (VStr "none"));
      ("fps", get_default f "fps" (VInt 0));
      ("format_note", get_default f "format_note" (VStr "")) ]).

(** Line 193. *)
Definition quality_key (format_info : dict) : string :=
  py_str (get format_info "quality") +:+ "_" +:+ py_str (get format_info "container").

(** The loop state of lines 172-173. *)
Record Processed := {
  seen_qualities : gset string;
  processed_formats : gmap string (list dict);
}.

(** [processed_formats[kind].append(info)] behind the duplicate test. *)
Definition place (kind : string) (info : dict) (st : Processed) : Processed :=
  let k := quality_key info in
  if bool_decide (k ∈ seen_qualities st) then st
  else {| seen_qualities := {[k]} ∪ seen_qualities st;
          processed_formats :=
            alter (fun l => (l ++ [info])%list) kind (processed_formats st) |}.

(** Lines 196-207. *)
Definition classify (info : dict) (st : Processed) : Processed :=
  let vcodec := get info "vcodec" in
  let acodec := get info "acodec" in
  if py_ne vcodec (VStr "none") && py_ne acodec (VStr "none")
  then place "combined" info st
  else if py_ne vcodec (VStr "none") && py_eq acodec (VStr "none")
  then place "videoOnly" info st
  else if py_eq vcodec (VStr "none") && py_ne acodec (VStr "none")
  then place "audioOnly" info st
  else st.

Fixpoint process_loop (formats : list dict) (st : Processed) : result Processed :=
  match formats with
  | [] => Ok st
  | f :: formats' => info ← format_info f; process_loop formats' (classify info st)
  end.

(** The key of lines 212-215. *)
Definition sort_key (x : dict) : result (Z * pyval) :=
  size ← size_key (get_default x "raw_size" (VInt 0));
  Ok (size, get_default x "fps" (VInt 0)).

Definition process_formats (formats : list dict) : result (gmap string (list dict)) :=
  st ← process_loop formats
         {| seen_qualities := ∅;
            processed_formats :=
              <["combined" := []]> (<["audioOnly" := []]> (<["videoOnly" := []]> ∅)) |};
  let lists := processed_formats st in
  v ← sort_desc sort_key (lists !!! "videoOnly");
  a ← sort_desc sort_key (lists !!! "audioOnly");
  c ← sort_desc sort_key (lists !!! "combined");
  Ok (<["combined" := c]> (<["audioOnly" := a]> (<["videoOnly" := v]> lists))).

(** Lines 309-338. *)
Definition ensure_audio_video_format (format_id : pyval) (formats : list dict)
    : result pyval :=
  match find_format formats format_id with
  | None => Ok (VStr "best")
  | Some selected_format =>
      if negb (dict_truthy selected_format) then Ok (VStr "best")
      else
        let acodec := get_default selected_format "acodec" (VStr "none") in
        let vcodec := get_default selected_format "vcodec" (VStr "none") in
        if py_ne acodec (VStr "none") && py_ne vcodec (VStr "none")
        then Ok format_id
        else if py_ne vcodec (VStr "none") && py_eq acodec (VStr "none") then
          best_audio ← get_best_audio_for_format formats selected_format;
          match best_audio with
          | Some a =>
              if dict_truthy a then
                audio_id ← getitem a "format_id";
                Ok (VStr (py_str format_id +:+ "+" +:+ py_str audio_id))
              else Ok (VStr "best")
          | None => Ok (VStr "best")
          end
        else Ok (VStr "best")
  end.
End Formats.

(** ** Observations used in the statements *)

(** The value stored under [k] in the state of job [video_id]. *)
Definition job_field (w : World) (video_id k : string) : option pyval :=
  match download_progress w !! video_id with
  | Some d => d !! k
  | None => None
  end.

(** The HTTP status of a handler's answer. *)
Definition http_status (r : result response) : option Z :=
  match r with
  | Ok resp => Some (status_code resp)
  | Raise _ => None
  end.

(** A computation that returns normally and changes nothing but files. *)
Definition files_only (m : M unit) : Prop :=
  forall w, exists fs, m w = (set_files (fun _ => fs) w, Ok tt).

(** The state of a job after the two updates of [cancel_download]. *)
Definition cancelled_job (d : dict) : dict :=
  update [("status", VStr "cancelled"); ("progress", VInt 0);
          ("error", VStr CANCEL_MESSAGE)]
    (update [("status", VStr "cancelling"); ("progress", VInt 0);
             ("error", VStr "Cancelando descarga...")] d).

(** The test of line 804: the file's modification time is below
    [current_time - 3600], in binary64. *)
Definition older_than_an_hour (current_time : spec_float) (f : file) : bool :=
  match num_compare (NFloat (mtime f))
                    (NFloat (fsub current_time (float_of_Z 3600))) with
  | Some Lt => true
  | _ => false
  end.

(** What [sweep_file] does to the files, for the path of one name. *)
Definition sweep_step (now : spec_float) (fs : filesystem) (p : string) : filesystem :=
  match fs !! p with
  | Some f => if older_than_an_hour now f then delete p fs else fs
  | None => fs
  end.

Definition swept (now : spec_float) (fs : filesystem) : filesystem :=
  foldl (sweep_step now) fs (path_join DOWNLOAD_FOLDER <$> listdir fs DOWNLOAD_FOLDER).

(** The entries of all four dictionaries for [video_id] removed. *)
Definition purge (video_id : string) (w : World) : World :=
  {| download_progress := delete video_id (download_progress w);
     download_processes := delete video_id (download_processes w);
     download_threads := download_threads w ∖ {[video_id]};
     download_cancel_flags := delete video_id (download_cancel_flags w);
     files := files w |}.

(** The test of lines 813-815. *)
Definition is_terminal (w : World) (video_id : string) : bool :=
  match download_progress w !! video_id with
  | Some d => py_in_list (get d "status") TERMINAL
  | None => false
  end.

Definition sweep_jobs_state (l : list string) (w : World) : World :=
  foldl (fun w id => if is_terminal w id then purge id w else w) w l.

(** No dictionary has an entry for [id]. *)
Definition gone (w : World) (id : string) : Prop :=
  download_progress w !! id = None /\ download_processes w !! id = None /\
  (id ∉ download_threads w) /\ download_cancel_flags w !! id = None.

(** The name of a file directly inside a directory. *)
Definition direct_name (name : string) : Prop :=
  name <> "" /\ contains "/" name = false.

(** A whole artifact request: the handler and, when it sent a file, the
    callback that Flask runs when the response stream is closed. *)
Definition fetch_artifact (video_id : string) : M response :=
  r ← get_video video_id;
  match payload r with
  | Attachment path _ _ => on_close path video_id
  | Json _ => pass
  end;;
  mret r.

Definition serves_file (r : result response) : bool :=
  match r with
  | Ok (Response _ (Attachment _ _ _)) => true
  | _ => false
  end.

(** The answer of lines 659 and 666. *)
Definition NOT_FOUND : response :=
  jsonify 404 [("error", VStr "Archivo no encontrado")].

(** The paths that [on_close] removes. *)
Definition closed_paths (final_path video_id : string) : list string :=
  final_path ::
  ((fun ext => path_join DOWNLOAD_FOLDER video_id +:+ ext) <$> TEMP_SUFFIXES).

(** An exception that the handlers of the program do not take for a
    cancellation: its text lacks the marker they look for. *)
Definition unmarked (e : pyexc) : Prop := contains "cancelled" (exc_msg e) = false.


(** The value of the cancel flag of a job, [False] when there is none. *)
Definition flag_set (w : World) (id : string) : bool :=
  match download_cancel_flags w !! id with Some b => b | None => false end.




(** ** A sample session *)

Definition empty_world : World :=
  {| download_progress := ∅; download_processes := ∅; download_threads := ∅;
     download_cancel_flags := ∅; files := ∅ |}.

Definition sample_formats : list dict :=
  [ mkdict [("format_id", VStr "140"); ("ext", VStr "m4a"); ("vcodec", VStr "none");
            ("acodec", VStr "mp4a.40.2"); ("format_note", VStr "medium");
            ("resolution", VStr "audio only"); ("filesize", VInt 3400000)];
    mkdict [("format_id", VStr "137"); ("ext", VStr "mp4");
            ("vcodec", VStr "avc1.640028"); ("acodec", VStr "none");
            ("resolution", VStr "1920x1080"); ("fps", VInt 30);
            ("filesize", VInt 52000000)];
    mkdict [("format_id", VStr "22"); ("ext", VStr "mp4");
            ("vcodec", VStr "avc1.64001F"); ("acodec", VStr "mp4a.40.2");
            ("resolution", VStr "1280x720"); ("fps", VInt 30);
            ("filesize", VNone)] ].

Definition sample_info : Info :=
  {| info_fields := mkdict [("title", VStr "Clip")];
     info_formats := Some sample_formats |}.

Definition sample_request (itag : string) : dict :=
  mkdict [("url", VStr "https://example.org/watch?v=1"); ("itag", VStr itag)].

(** The state right after a job was submitted at clock reading
    1700000000.25: no progress event has been reported yet. *)
Definition submitted : World :=
  (download (sample_request "22") (decimal 170000000025 2) (Ok sample_info)
     empty_world).1.

Definition sample_id : string := "1700000000".

Definition downloading_event (downloaded total : Z) : dict :=
  mkdict [("status", VStr "downloading"); ("downloaded_bytes", VInt downloaded);
          ("total_bytes", VInt total); ("speed", VFloat (float_of_Z 1000000))].

Definition sample_hook (stage : string) : ProgressHook :=
  {| video_id := sample_id; stage := stage; start_time := decimal 170000000100 2 |}.

Definition sample_now : spec_float := decimal 170000000200 2.

Definition finished_event : dict := mkdict [("status", VStr "finished")].

(** A call of the extractor that nobody disturbs. *)
Definition quiet_run (path : string) : adapter_run :=
  {| hook_created := decimal 170000000100 2;
     steps := [ HookEvent (downloading_event 512 1024) sample_now [];
                HookEvent finished_event sample_now [] ];
     outcome := Ok path |}.

(** A call of the extractor during which the client cancels the job: the
    request is served between two progress events. *)
Definition cancelled_run (path : string) : adapter_run :=
  {| hook_created := decimal 170000000100 2;
     steps := [ HookEvent (downloading_event 256 1024) sample_now [];
                Around (Concurrent (ReqCancel sample_id));
                HookEvent (downloading_event 512 1024) sample_now [];
                HookEvent finished_event sample_now [] ];
     outcome := Ok path |}.

Definition quiet_encoder : encoder_run :=
  {| started := Ok 4242; during := []; returncode := 0; stderr := "" |}.

(** An encoder run during which the client cancels: the process is killed
    and exits with a nonzero code. *)
Definition killed_encoder : encoder_run :=
  {| started := Ok 4242; during := [Concurrent (ReqCancel sample_id)];
     returncode := -9; stderr := "" |}.

Definition sample_video_path : string := "downloads/temp_video_1700000000.mp4".
Definition sample_audio_path : string := "downloads/temp_audio_1700000000.m4a".

Definition sample_job : Job :=
  {| job_id := sample_id; is_audio_only := false; temp_path := "";
     final_path := "downloads/video_1700000000.mp4" |}.

(** A call of the extractor that leaves the artifact of the sample job on
    disk. *)
Definition writing_run : adapter_run :=
  {| hook_created := decimal 170000000100 2;
     steps := [ HookEvent (downloading_event 1024 1024) sample_now [];
                Around (WriteFile (final_path sample_job)
                          {| mtime := sample_now |});
                HookEvent finished_event sample_now [] ];
     outcome := Ok (final_path sample_job) |}.

(** The state after the single-file worker of the sample job has
    finished. *)
Definition delivered : World := (download_thread sample_job writing_run submitted).1.

(** A clock reading two hours after the artifact was written. *)
Definition two_hours_later : spec_float := decimal 170000720200 2.

(** The codec tests of lines 323-333 on the selected format, with the
    defaults the code gives. *)
Definition carries_audio (f : dict) : bool :=
  py_ne (get_default f "acodec" (VStr "none")) (VStr "none").

Definition carries_video (f : dict) : bool :=
  py_ne (get_default f "vcodec" (VStr "none")) (VStr "none").


Definition returns {A} (r : result A) : bool :=
  match r with Ok _ => true | Raise _ => false end.



(** The interpreter of the closed examples.  None of them renders a float;
    this one prints floats in fixed notation with one decimal, which is what
    [repr] prints for whole numbers and halves of moderate size. *)
Definition sample_runtime : Runtime := {| float_repr := format_float 1 |}.

(** The three classes of lines 196-207, on an entry of the listing. *)
Definition combined_entry (x : dict) : bool :=
  py_ne (get x "vcodec") (VStr "none") && py_ne (get x "acodec") (VStr "none").

Definition video_only_entry (x : dict) : bool :=
  py_ne (get x "vcodec") (VStr "none") && py_eq (get x "acodec") (VStr "none").

Definition audio_only_entry (x : dict) : bool :=
  py_eq (get x "vcodec") (VStr "none") && py_ne (get x "acodec") (VStr "none").

(** The sort keys of the entries can be compared with each other: sorting
    them all together does not raise. *)
Definition comparable (infos : list dict) : bool :=
  returns (sort_desc sort_key infos).

(** The dictionary [process_formats] returns. *)
Definition listing (c a v : list dict) : gmap string (list dict) :=
  <["combined" := c]> (<["audioOnly" := a]> (<["videoOnly" := v]> ∅)).

(** Within each class the sort keys can be compared. *)
Definition sortable (infos : list dict) : bool :=
  comparable (List.filter combined_entry infos)
  && comparable (List.filter video_only_entry infos)
  && comparable (List.filter audio_only_entry infos).

(** The loop invariant of lines 176-207: the three lists hold entries of
    their class, taken from [all], with pairwise different keys, and
    [seen_qualities] is the set of these keys. *)
Definition placed `{Runtime} (all : list dict) (st : Processed) (c v a : list dict)
    : Prop :=
  processed_formats st = listing c a v /\
  Forall (fun x => combined_entry x = true) c /\
  Forall (fun x => video_only_entry x = true) v /\
  Forall (fun x => audio_only_entry x = true) a /\
  NoDup (quality_key <$> (c ++ v ++ a)%list) /\
  (forall k, k ∈ seen_qualities st <-> k ∈ quality_key <$> (c ++ v ++ a)%list) /\
  (forall x, x ∈ (c ++ v ++ a)%list -> x ∈ all).

(** A YouTube-like catalogue: a storyboard without codecs, three audio
    streams of which two share quality and container, a video stream and a
    combined one. *)
Definition catalogue : list dict :=
  [ mkdict [("format_id", VStr "sb0"); ("ext", VStr "mhtml"); ("vcodec", VStr "none");
            ("acodec", VStr "none"); ("resolution", VStr "48x27")];
    mkdict [("format_id", VStr "139"); ("ext", VStr "m4a"); ("vcodec", VStr "none");
            ("acodec", VStr "mp4a.40.5"); ("resolution", VStr "audio only");
            ("fps", VNone); ("filesize", VInt 1200000)];
    mkdict [("format_id", VStr "140"); ("ext", VStr "m4a"); ("vcodec", VStr "none");
            ("acodec", VStr "mp4a.40.2"); ("resolution", VStr "audio only");
            ("fps", VNone); ("filesize", VInt 3400000)];
    mkdict [("format_id", VStr "251"); ("ext", VStr "webm"); ("vcodec", VStr "none");
            ("acodec", VStr "opus"); ("resolution", VStr "audio only");
            ("fps", VNone); ("filesize", VInt 3900000)];
    mkdict [("format_id", VStr "137"); ("ext", VStr "mp4");
            ("vcodec", VStr "avc1.640028"); ("acodec", VStr "none");
            ("resolution", VStr "1920x1080"); ("fps", VInt 30);
            ("filesize", VInt 52000000)];
    mkdict [("format_id", VStr "22"); ("ext", VStr "mp4");
            ("vcodec", VStr "avc1.64001F"); ("acodec", VStr "mp4a.40.2");
            ("resolution", VStr "1280x720"); ("fps", VInt 30);
            ("filesize", VNone)] ].

Definition itags (l : list dict) : list pyval := (fun x => get x "itag") <$> l.

(** The entries built from the catalogue. *)
Definition catalogue_infos : list dict :=
  match traverse format_info catalogue with Ok l => l | Raise _ => [] end.

(** Unique identifiers, stated on the clock readings of two submissions:
    different readings never give the same identifier. *)
Definition ids_never_collide : Prop :=
  forall t1 t2 id1 id2, t1 <> t2 ->
    new_video_id t1 = Ok id1 -> new_video_id t2 = Ok id2 -> id1 <> id2.

(** Two submissions, one after the other. *)
Definition submit_twice (d1 d2 : dict) (t1 t2 : spec_float) (i1 i2 : result Info)
    : M (option Job * option Job) :=
  r1 ← download d1 t1 i1;
  r2 ← download d2 t2 i2;
  mret (r1.2, r2.2).

(** Two clock readings half a second apart. *)
Definition first_reading : spec_float := decimal 170000000025 2.
Definition second_reading : spec_float := decimal 170000000075 2.

(** A video job submitted at the first reading, then an audio job at the
    second. *)
Definition after_two_submissions : World :=
  (submit_twice (sample_request "22") (sample_request "140")
     first_reading second_reading (Ok sample_info) (Ok sample_info) empty_world).1.

(** How a worker left the sample job: its status, its error field and
    its cancel flag. *)
Definition verdict {A} (r : World * result A) : option pyval * option pyval * bool :=
  (job_field r.1 sample_id "status", job_field r.1 sample_id "error",
   flag_set r.1 sample_id).

(** Lines 275-277: [any(f.get("format_id") == itag for f in formats)] *)
Definition validate_format (formats : list dict) (itag : pyval) : bool :=
  existsb (fun f => py_eq (get f "format_id") itag) formats.

(** The answer of line 651 to the exception of line 590, when no format was
    selected. *)
Definition NO_FORMAT : response :=
  jsonify 500 [("success", VBool false);
               ("error", VStr "'NoneType' object has no attribute 'get'")].

(** The characters of a job identifier: decimal digits, and the sign of a
    clock reading before 1970. *)
Definition numeral_char (c : ascii) : bool :=
  (let n := nat_of_ascii c in (48 <=? n) && (n <=? 57))%nat || Ascii.eqb c "-".

Definition numeral (s : string) : bool :=
  forallb numeral_char (list_ascii_of_string s).

(** [p] is the path of a file directly inside the download folder whose name
    matches [pattern]: what [glob.glob] of line 766 selects among the existing
    files. *)
Definition globbed (pattern p : string) : bool :=
  let pre := DOWNLOAD_FOLDER +:+ "/" in
  let name := drop_chars (String.length pre) p in
  String.prefix pre p && negb (String.eqb name "") && negb (contains "/" name)
  && fnmatch (list_ascii_of_string pattern) (list_ascii_of_string name)
  && (negb (String.prefix "." name) || String.prefix "." pattern).

(** A partial file of job [video_id]: it matches one of the six patterns of
    lines 755-762. *)
Definition partial_file (video_id p : string) : bool :=
  existsb (fun pattern => globbed pattern p) (cancel_patterns video_id).
(** What lines 753-772 do to the files. *)
Definition without_partial_files (patterns : list string) (fs : filesystem)
    : filesystem :=
  foldl (fun fs pattern =>
           foldl (fun fs p => delete p fs) fs (glob fs DOWNLOAD_FOLDER pattern))
        fs patterns.
(** The state after an audio job was submitted at the first reading and
    yt-dlp has written the raw download, the converted audio and the final
    file. *)
Definition audio_in_progress : World :=
  set_files (fun _ => {[ "downloads/1700000000_temp" := {| mtime := sample_now |};
                         "downloads/1700000000_temp.mp3" := {| mtime := sample_now |};
                         "downloads/1700000000_final.mp3" := {| mtime := sample_now |} ]})
    (download (sample_request "140") first_reading (Ok sample_info) empty_world).1.




(** The claim of the specification on delivery: a job's artifact is served
    at most once, and once the stream of a served fetch is closed none of the
    job's temporary files (the files that the patterns of lines 755-762 name)
    is left. *)
Definition delivered_at_most_once : Prop :=
  forall w id,
    serves_file (get_video id w).2 = true ->
    serves_file (get_video id (get_video id w).1).2 = false /\
    forall p, partial_file id p = true -> files (fetch_artifact id w).1 !! p = None.

(** The completed sample job with, besides its artifact, a converted stream
    [<id>.webm] and the video stream [temp_video_<id>.mp4] of a merge. *)
Definition delivered_with_streams : World :=
  set_files (fun fs =>
               <["downloads/1700000000.webm" := {| mtime := sample_now |}]>
                 (<["downloads/temp_video_1700000000.mp4" := {| mtime := sample_now |}]> fs))
    delivered.

(** ** The operations on the registry *)













(** What a computation establishes from state [s]: [Qok] on its final state
    and result when it returns, [Qerr] on its final state and exception when
    it raises. *)
Definition post {S A} (m : ST S A) (s : S)
    (Qok : S -> A -> Prop) (Qerr : S -> pyexc -> Prop) : Prop :=
  match m s with
  | (s', Ok a) => Qok s' a
  | (s', Raise e) => Qerr s' e
  end.





(* ================================================================== *)
(** * Properties *)

Ltac st_unfold :=
  unfold mbind, ST_bind, mret, ST_ret, get_state, modify, lift, throw, pass,
         when, try_except, try_finally in *.

Lemma difference_singleton_notin (s : gset string) (x : string) :
  x ∉ s -> s ∖ {[x]} = s.
Proof.
  intros Hx. apply set_eq. intros y. rewrite elem_of_difference, elem_of_singleton.
  split; [tauto|]. intros Hy. split; [done|]. by intros ->.
Qed.

(** ** Computations that only touch files *)

Lemma files_only_pass : files_only pass.
Proof. intros [p q t c fs]. by exists fs. Qed.

Lemma files_only_bind (m : M unit) (k : unit -> M unit) :
  files_only m -> (forall u, files_only (k u)) -> files_only (m ≫= k).
Proof.
  intros Hm Hk w. destruct (Hm w) as [fs1 E1].
  destruct (Hk tt (set_files (fun _ => fs1) w)) as [fs2 E2].
  exists fs2. unfold mbind, ST_bind. by rewrite E1, E2.
Qed.

Lemma files_only_for_each {A} (l : list A) (body : A -> M unit) :
  (forall x, files_only (body x)) -> files_only (for_each l body).
Proof.
  intros Hb. induction l as [|x l IH]; simpl.
  - apply files_only_pass.
  - apply files_only_bind; auto.
Qed.

Lemma files_only_read (k : World -> M unit) :
  (forall w0, files_only (k w0)) -> files_only (w ← get_state; k w).
Proof. intros Hk w. destruct (Hk w w) as [fs E]. exists fs. apply E. Qed.

Lemma files_only_try (m : M unit) :
  files_only m -> files_only (try_except m (fun _ => pass)).
Proof.
  intros Hm w. destruct (Hm w) as [fs E]. exists fs.
  unfold try_except. by rewrite E.
Qed.

Lemma files_only_try_remove (p : string) :
  files_only (try_except (os_remove p) (fun _ => pass)).
Proof.
  intros w. unfold os_remove. st_unfold.
  destruct (path_exists (files w) p).
  - by exists (delete p (files w)).
  - destruct w as [a b c d fs]. by exists fs.
Qed.

Lemma files_only_remove_partial_files id : files_only (remove_partial_files id).
Proof.
  apply files_only_try, files_only_for_each. intros pat.
  apply files_only_read. intros w0. apply files_only_for_each. intros f.
  apply files_only_try_remove.
Qed.

(** ** Cancellation *)

Lemma terminate_process_run id w :
  terminate_process id w = (set_processes (delete id) w, Ok tt).
Proof.
  unfold terminate_process, kill_process_tree. st_unfold.
  destruct (download_processes w !! id) eqn:E; [done|].
  destruct w as [a b c d fs]; simpl in *. unfold set_processes; simpl.
  by rewrite delete_id.
Qed.

Lemma cancel_download_registered w id d :
  download_progress w !! id = Some d ->
  exists fs, cancel_download id w =
    ({| download_progress := <[id := cancelled_job d]> (download_progress w);
        download_processes := delete id (download_processes w);
        download_threads := download_threads w ∖ {[id]};
        download_cancel_flags := <[id := true]> (download_cancel_flags w);
        files := fs |},
     Ok (jsonify 200 [("success", VBool true); ("message", VStr "Descarga cancelada");
                      ("status", VStr "cancelled")])).
Proof.
  intros Hd. unfold cancel_download, registered, job_update, job.
  st_unfold. rewrite Hd. simpl. rewrite Hd.
  rewrite terminate_process_run.
  match goal with |- context [remove_partial_files id ?s] =>
    destruct (files_only_remove_partial_files id s) as [fs ->] end.
  exists fs. simpl. rewrite lookup_insert_eq. simpl.
  unfold set_files, set_processes, set_progress, set_cancel_flags, set_threads; simpl.
  rewrite insert_insert_eq.
  destruct (bool_decide (id ∈ download_threads w)) eqn:Hin; [done|].
  apply bool_decide_eq_false in Hin.
  do 2 f_equal. symmetry. by apply difference_singleton_notin.
Qed.

Lemma cancel_download_unregistered w id :
  download_progress w !! id = None ->
  cancel_download id w =
    (w, Ok (jsonify 404 [("success", VBool false);
                         ("error", VStr "Descarga no encontrada")])).
Proof.
  intros Hd. unfold cancel_download, registered. st_unfold. by rewrite Hd.
Qed.

(** C2.  [cancel_download] answers 404 exactly when the identifier is not
    in the registry; for an identifier that is in the registry, whatever the
    state of the job (so also right after submission, before any progress
    event), it answers 200 and leaves the job with status [cancelled] and
    progress [0]. *)
Theorem cancel_download_spec (w : World) (video_id : string) :
  (http_status (cancel_download video_id w).2 = Some 404
     <-> download_progress w !! video_id = None) /\
  (download_progress w !! video_id <> None ->
     http_status (cancel_download video_id w).2 = Some 200 /\
     job_field (cancel_download video_id w).1 video_id "status"
       = Some (VStr "cancelled") /\
     job_field (cancel_download video_id w).1 video_id "progress"
       = Some (VInt 0)).
Proof.
  destruct (download_progress w !! video_id) as [d|] eqn:Hd.
  - destruct (cancel_download_registered w video_id d Hd) as [fs ->].
    split; [split; discriminate|]. intros _. unfold job_field; simpl.
    rewrite lookup_insert_eq. unfold cancelled_job, update; simpl.
    split; [done|]. split; by simplify_map_eq.
  - rewrite (cancel_download_unregistered w video_id Hd).
    split; [done|]. by intros [].
Qed.

(** ** Strings and the directory listing *)

Lemma string_app_assoc (a b c : string) : (a +:+ b) +:+ c = a +:+ (b +:+ c).
Proof.
  induction a as [|x a IH]; [done|].
  change (String x a +:+ ?s) with (String x (a +:+ s)).
  change (String x (a +:+ b) +:+ c) with (String x ((a +:+ b) +:+ c)).
  by rewrite IH.
Qed.

Lemma prefix_drop pre p :
  String.prefix pre p = true -> p = pre +:+ drop_chars (String.length pre) p.
Proof.
  revert p. induction pre as [|c pre IH]; intros p Hp; [done|].
  destruct p as [|c' p]; simpl in Hp; [done|].
  destruct (ascii_dec c c') as [->|]; [|done].
  cbn [String.length drop_chars].
  change (String c' pre +:+ ?s) with (String c' (pre +:+ s)).
  f_equal. by apply IH.
Qed.

Lemma prefix_app pre s : String.prefix pre (pre +:+ s) = true.
Proof.
  induction pre as [|c pre IH]; [by destruct s|].
  change (String c pre +:+ s) with (String c (pre +:+ s)). simpl.
  destruct (ascii_dec c c); [done|congruence].
Qed.

Lemma drop_chars_app pre s : drop_chars (String.length pre) (pre +:+ s) = s.
Proof.
  induction pre as [|c pre IH]; [by destruct s|].
  change (String c pre +:+ s) with (String c (pre +:+ s)). done.
Qed.

Lemma contains_prefix needle hay :
  contains needle hay = false -> String.prefix needle hay = false.
Proof. destruct hay; simpl; by intros [? _]%orb_false_iff. Qed.

Lemma elem_of_listdir fs dir name :
  name ∈ listdir fs dir <->
  direct_name name /\ is_Some (fs !! (dir +:+ "/" +:+ name)).
Proof.
  unfold listdir, direct_name. rewrite list_elem_of_omap. split.
  - intros (p & Hp & Hg).
    destruct (String.prefix (dir +:+ "/") p) eqn:Hpre; [|done].
    destruct (String.eqb _ "") eqn:Hne; [done|].
    destruct (contains "/" _) eqn:Hc; [done|]. simpl in Hg. injection Hg as <-.
    apply prefix_drop in Hpre.
    apply String.eqb_neq in Hne.
    split; [done|].
    apply list_elem_of_fmap in Hp as ([p' f] & -> & Hpf). simpl in *.
    apply elem_of_map_to_list in Hpf.
    rewrite <- string_app_assoc. rewrite <- Hpre. eauto.
  - intros ([Hne Hc] & f & Hf).
    exists (dir +:+ "/" +:+ name). split.
    + apply list_elem_of_fmap. exists (dir +:+ "/" +:+ name, f). split; [done|].
      by apply elem_of_map_to_list.
    + rewrite <- !string_app_assoc. rewrite prefix_app, drop_chars_app, Hc.
      apply String.eqb_neq in Hne. by rewrite Hne.
Qed.

Lemma NoDup_listdir fs dir : NoDup (listdir fs dir).
Proof.
  unfold listdir.
  assert (Hinj : forall p q n,
    (let name := drop_chars (String.length (dir +:+ "/")) p in
     if String.prefix (dir +:+ "/") p && negb (String.eqb name "")
        && negb (contains "/" name)
     then Some name else None) = Some n ->
    (let name := drop_chars (String.length (dir +:+ "/")) q in
     if String.prefix (dir +:+ "/") q && negb (String.eqb name "")
        && negb (contains "/" name)
     then Some name else None) = Some n -> p = q).
  { intros p q n. cbv zeta.
    destruct (String.prefix (dir +:+ "/") p) eqn:Hp; [|done].
    destruct (String.prefix (dir +:+ "/") q) eqn:Hq; [|by rewrite !andb_false_l].
    apply prefix_drop in Hp, Hq.
    repeat case_match; try done. intros [= E1] [= E2].
    rewrite Hp, Hq. congruence. }
  generalize (NoDup_fst_map_to_list fs).
  induction ((map_to_list fs).*1) as [|p l IH]; intros Hnd; [constructor|].
  apply NoDup_cons in Hnd as [Hp Hl]. cbn [omap list_omap].
  case_match eqn:Hg; [|by apply IH].
  apply NoDup_cons. split; [|by apply IH].
  intros (q & Hq & Hgq)%list_elem_of_omap.
  assert (p = q) as -> by (eapply Hinj; eauto). done.
Qed.

Lemma path_join_direct name :
  contains "/" name = false ->
  path_join DOWNLOAD_FOLDER name = "downloads/" +:+ name.
Proof.
  intros Hc. unfold path_join. by rewrite (contains_prefix _ _ Hc).
Qed.

(** ** The retention sweeper *)

Lemma sweep_job_run id w :
  sweep_job id w = (if is_terminal w id then purge id w else w, Ok tt).
Proof.
  unfold sweep_job, is_terminal, registered, job. st_unfold.
  destruct (download_progress w !! id) as [d|] eqn:Hd.
  2: { rewrite bool_decide_eq_false_2; [done|]. by intros [? ?]. }
  rewrite bool_decide_eq_true_2 by eauto. rewrite Hd.
  destruct (py_in_list (get d "status") TERMINAL); [|done].
  rewrite Hd. rewrite bool_decide_eq_true_2 by eauto.
  unfold purge, set_progress, set_processes, set_threads, set_cancel_flags.
  destruct w as [pr ps th fl fs]; cbn [download_progress download_processes
    download_threads download_cancel_flags files] in *.
  repeat case_bool_decide; unfold pass, mret, ST_ret; simpl; do 2 f_equal;
    try (symmetry; apply delete_id; by apply eq_None_not_Some);
    try (symmetry; by apply difference_singleton_notin).
Qed.

Lemma for_each_sweep_jobs l w :
  for_each l sweep_job w = (sweep_jobs_state l w, Ok tt).
Proof.
  revert w. induction l as [|id l IH]; intros w; simpl; [done|].
  unfold mbind, ST_bind. rewrite sweep_job_run. apply IH.
Qed.

Lemma sweep_jobs_files l w : files (sweep_jobs_state l w) = files w.
Proof.
  revert w; induction l as [|id l IH]; intros w; simpl; [done|].
  unfold sweep_jobs_state in *. simpl. rewrite IH. by destruct (is_terminal w id).
Qed.

Lemma is_terminal_purge_ne w id id' :
  id <> id' -> is_terminal (purge id w) id' = is_terminal w id'.
Proof. intros Hne. unfold is_terminal, purge; simpl. by rewrite lookup_delete_ne. Qed.

Lemma purge_gone w id : gone (purge id w) id.
Proof.
  unfold gone, purge; simpl. rewrite !lookup_delete_eq.
  repeat split; try done. rewrite elem_of_difference, elem_of_singleton. tauto.
Qed.

Lemma gone_purge w id id' : gone w id -> gone (purge id' w) id.
Proof.
  unfold gone, purge; simpl. intros (?&?&?&?).
  repeat split; try (rewrite lookup_delete_None; auto).
  rewrite elem_of_difference. tauto.
Qed.

Lemma gone_sweep l w id : gone w id -> gone (sweep_jobs_state l w) id.
Proof.
  revert w; induction l as [|x l IH]; intros w Hg; [done|].
  unfold sweep_jobs_state in *; simpl. apply IH.
  destruct (is_terminal w x); auto using gone_purge.
Qed.

Lemma sweep_jobs_gone l w id :
  id ∈ l -> is_terminal w id = true -> gone (sweep_jobs_state l w) id.
Proof.
  revert w; induction l as [|x l IH]; intros w Hin Ht; [by inversion Hin|].
  unfold sweep_jobs_state in *; simpl.
  destruct (decide (x = id)) as [->|Hne].
  - rewrite Ht. apply gone_sweep, purge_gone.
  - apply elem_of_cons in Hin as [->|Hin]; [done|].
    apply IH; [done|]. destruct (is_terminal w x); [|done].
    by rewrite is_terminal_purge_ne.
Qed.

Lemma sweep_file_run now w fs name f :
  fs !! path_join DOWNLOAD_FOLDER name = Some f ->
  sweep_file now name (set_files (fun _ => fs) w)
  = (set_files (fun _ => sweep_step now fs (path_join DOWNLOAD_FOLDER name)) w, Ok tt).
Proof.
  intros Hf.
  unfold sweep_file, getmtime, os_remove, sweep_step, older_than_an_hour, path_exists.
  st_unfold. cbv zeta. cbn [files set_files].
  destruct (fs !! path_join DOWNLOAD_FOLDER name) as [f'|] eqn:E; [|done].
  injection Hf as ->.
  change (py_sub (VFloat now) (VInt 3600))
    with (Ok (A:=pyval) (VFloat (fsub now (float_of_Z 3600)))).
  cbn [py_lt as_num].
  destruct (num_compare _ _) as [[]|]; try done.
  cbn [files set_files]. rewrite E. done.
Qed.

Lemma sweep_loop now w names : forall fs,
  NoDup names ->
  (forall n, n ∈ names ->
     contains "/" n = false /\ is_Some (fs !! ("downloads/" +:+ n))) ->
  for_each names (sweep_file now) (set_files (fun _ => fs) w)
  = (set_files (fun _ => foldl (sweep_step now) fs
                            (path_join DOWNLOAD_FOLDER <$> names)) w,
     Ok tt).
Proof.
  induction names as [|n names IH]; intros fs Hnd Hall; [done|].
  apply NoDup_cons in Hnd as [Hn Hnd].
  destruct (Hall n) as [Hc [f Hf]]; [left|].
  cbn [for_each]. unfold mbind at 1. unfold ST_bind at 1.
  rewrite (sweep_file_run now w fs n f) by (by rewrite path_join_direct).
  cbn [fmap list_fmap foldl]. apply IH; [done|].
  intros n' Hn'. destruct (Hall n') as [Hc' [f' Hf']]; [by right|]. split; [done|].
  unfold sweep_step. rewrite path_join_direct, Hf by done.
  destruct (older_than_an_hour now f); [|eauto].
  rewrite lookup_delete_ne; [eauto|]. intros E. apply (inj _) in E. congruence.
Qed.

Lemma sweep_step_lookup now fs q p :
  sweep_step now fs q !! p = None \/ sweep_step now fs q !! p = fs !! p.
Proof.
  unfold sweep_step. destruct (fs !! q) as [f|]; [|by right].
  destruct (older_than_an_hour now f); [|by right].
  destruct (decide (q = p)) as [->|];
    [left; apply lookup_delete_eq|right; by apply lookup_delete_ne].
Qed.

Lemma sweep_fold_lookup now ps : forall fs p,
  foldl (sweep_step now) fs ps !! p = None \/
  foldl (sweep_step now) fs ps !! p = fs !! p.
Proof.
  induction ps as [|q ps IH]; intros fs p; [by right|]. simpl.
  destruct (IH (sweep_step now fs q) p) as [->| ->];
    [by left|apply sweep_step_lookup].
Qed.

Lemma sweep_fold_removed now ps : forall fs p f,
  p ∈ ps -> fs !! p = Some f -> older_than_an_hour now f = true ->
  foldl (sweep_step now) fs ps !! p = None.
Proof.
  induction ps as [|q ps IH]; intros fs p f Hin Hf Ho; [by inversion Hin|]. simpl.
  destruct (decide (q = p)) as [->|Hne].
  - destruct (sweep_fold_lookup now ps (sweep_step now fs p) p) as [->| ->]; [done|].
    unfold sweep_step. rewrite Hf, Ho. apply lookup_delete_eq.
  - apply elem_of_cons in Hin as [->|Hin]; [done|].
    apply (IH _ _ f); [done| |done].
    unfold sweep_step. destruct (fs !! q) as [g|]; [|done].
    destruct (older_than_an_hour now g); [|done]. by rewrite lookup_delete_ne.
Qed.

Lemma sweep_files_run now w :
  sweep_files now w = (set_files (swept now) w, Ok tt).
Proof.
  unfold sweep_files. unfold mbind, ST_bind, get_state.
  assert (w = set_files (fun _ => files w) w) as Hw by (by destruct w).
  rewrite Hw at 2. rewrite sweep_loop.
  - done.
  - apply NoDup_listdir.
  - intros n [[_ Hc] Hf]%elem_of_listdir. done.
Qed.

Lemma cleanup_downloads_run now w :
  cleanup_downloads now w =
    (sweep_jobs_state (map_to_list (download_progress w)).*1
       (set_files (swept now) w),
     Ok tt).
Proof.
  unfold cleanup_downloads, try_except. unfold mbind, ST_bind.
  rewrite sweep_files_run. unfold get_state. by rewrite for_each_sweep_jobs.
Qed.

Lemma terminal_status w id d :
  download_progress w !! id = Some d -> get d "status" ∈ TERMINAL ->
  is_terminal w id = true.
Proof.
  intros Hd Hin. unfold is_terminal. rewrite Hd. unfold TERMINAL in *.
  unfold py_in_list. apply existsb_exists. exists (get d "status").
  split; [by apply list_elem_of_In|].
  set_unfold. destruct Hin as [->|[->|[->|[]]]]; done.
Qed.

(** C7.  One cycle of the sweeper removes every registry entry whose status
    is [completed], [error] or [cancelled], with the job's entries in the
    process, thread and cancel-flag dictionaries, so that a status poll
    afterwards answers [not_found]; and it removes every file directly in
    the download directory whose modification time is more than 3600
    seconds before the clock reading of the cycle. *)
Theorem cleanup_downloads_spec (now : spec_float) (w : World) :
  let w' := (cleanup_downloads now w).1 in
  (forall id d, download_progress w !! id = Some d ->
     get d "status" ∈ TERMINAL ->
     gone w' id /\
     (get_progress id w').2 = Ok (jsonify 200 [("status", VStr "not_found")])) /\
  (forall name f, direct_name name ->
     files w !! ("downloads/" +:+ name) = Some f ->
     older_than_an_hour now f = true ->
     files w' !! ("downloads/" +:+ name) = None).
Proof.
  rewrite cleanup_downloads_run. cbn [fst]. split.
  - intros id d Hd Ht.
    assert (gone (sweep_jobs_state (map_to_list (download_progress w)).*1
              (set_files (swept now) w)) id) as Hg.
    { apply sweep_jobs_gone.
      - apply list_elem_of_fmap. exists (id, d). split; [done|].
        by apply elem_of_map_to_list.
      - by apply (terminal_status _ _ d). }
    split; [done|]. unfold get_progress. st_unfold. destruct Hg as [-> _]. done.
  - intros name f Hdn Hf Ho. rewrite sweep_jobs_files. cbn [files set_files].
    apply (sweep_fold_removed _ _ _ _ f); [|done|done].
    apply list_elem_of_fmap. exists name. split.
    + destruct Hdn as [_ Hc]. by rewrite path_join_direct.
    + apply elem_of_listdir. eauto.
Qed.

(** ** Artifact delivery *)

Lemma py_eq_str v s : py_eq v (VStr s) = true <-> v = VStr s.
Proof.
  destruct v; unfold py_eq; simpl; try (split; [done|by intros [=]]).
  rewrite String.eqb_eq. split; congruence.
Qed.

Lemma get_video_cases w id :
  (get_video id w).1 = w /\
  ((exists d path mime name,
      download_progress w !! id = Some d /\
      d !! "status" = Some (VStr "completed") /\
      get d "final_path" = VStr path /\ is_Some (files w !! path) /\
      (get_video id w).2 = Ok (Response 200 (Attachment path mime name)))
   \/ (serves_file (get_video id w).2 = false /\
       exists r, (get_video id w).2 = Ok r /\
         (status_code r = 400 \/ status_code r = 404 \/ status_code r = 500))).
Proof.
  unfold get_video, getitem. st_unfold.
  destruct (download_progress w !! id) as [d|] eqn:Hd.
  2: { split; [done|]. right. split; [done|]. eexists. split; [done|]. cbn; auto. }
  destruct (d !! "status") as [st|] eqn:Hst.
  2: { split; [done|]. right. split; [done|]. eexists. split; [done|]. cbn; auto. }
  cbn [raise]. unfold py_ne.
  destruct (py_eq st (VStr "completed")) eqn:Hc; cbn [negb].
  2: { split; [done|]. right. split; [done|]. eexists. split; [done|]. cbn; auto. }
  apply py_eq_str in Hc as ->.
  destruct (truthy (get d "final_path")) eqn:Ht; cbn [negb].
  2: { split; [done|]. right. split; [done|]. eexists. split; [done|]. cbn; auto. }
  destruct (get d "final_path") as [| | | |path] eqn:Hp;
    try (split; [done|]; right; split; [done|]; eexists; split; [done|]; cbn; auto).
  destruct (path_exists (files w) path) eqn:He; cbn [negb].
  2: { split; [done|]. right. split; [done|]. eexists. split; [done|]. cbn; auto. }
  destruct (safe_title _) as [t|e] eqn:Hs.
  2: { split; [done|]. right. split; [done|]. eexists. split; [done|]. cbn; auto. }
  split; [done|]. left. exists d, path. do 2 eexists. split; [done|]. split; [done|].
  split; [done|]. split; [|done].
  unfold path_exists in He. by apply bool_decide_eq_true in He.
Qed.

Lemma get_video_missing_file w id d path :
  download_progress w !! id = Some d ->
  d !! "status" = Some (VStr "completed") ->
  get d "final_path" = VStr path -> files w !! path = None ->
  get_video id w = (w, Ok NOT_FOUND).
Proof.
  intros Hd Hst Hfp Hf. unfold get_video, getitem. st_unfold.
  rewrite Hd, Hst, Hfp.
  change (py_ne (VStr "completed") (VStr "completed")) with false.
  cbv iota. destruct (truthy (VStr path)); [|done]. cbn [negb].
  unfold path_exists. rewrite bool_decide_eq_false_2; [done|].
  rewrite Hf. by intros [? ?].
Qed.

Lemma remove_if_exists_run p w :
  remove_if_exists p w = (set_files (delete p) w, Ok tt).
Proof.
  unfold remove_if_exists, os_remove, path_exists. st_unfold.
  destruct (bool_decide (is_Some (files w !! p))) eqn:Hp; [by rewrite Hp|].
  apply bool_decide_eq_false in Hp.
  destruct w as [a b c d fs]; unfold set_files; simpl in *.
  rewrite delete_id; [done|]. by apply eq_None_not_Some.
Qed.

Lemma for_each_remove ps w :
  for_each ps remove_if_exists w =
    (set_files (fun fs => foldl (fun fs p => delete p fs) fs ps) w, Ok tt).
Proof.
  revert w. induction ps as [|p ps IH]; intros w; cbn [for_each foldl].
  - by destruct w.
  - unfold mbind, ST_bind. rewrite remove_if_exists_run, IH. done.
Qed.

Lemma for_each_fmap {A B} (g : A -> B) (body : B -> M unit) l :
  for_each l (fun x => body (g x)) = for_each (g <$> l) body.
Proof. induction l as [|x l IH]; simpl; [done|]. by rewrite IH. Qed.

Lemma on_close_run path id w :
  on_close path id w =
    (set_files (fun fs => foldl (fun fs p => delete p fs) fs (closed_paths path id)) w,
     Ok tt).
Proof.
  unfold on_close, try_except, closed_paths. unfold mbind, ST_bind.
  rewrite remove_if_exists_run. cbv zeta.
  rewrite (for_each_fmap (fun ext => path_join DOWNLOAD_FOLDER id +:+ ext)
             remove_if_exists).
  by rewrite for_each_remove.
Qed.

Lemma foldl_delete_lookup (ps : list string) : forall (fs : filesystem) p,
  foldl (fun fs p => delete p fs) fs ps !! p =
    if bool_decide (p ∈ ps) then None else fs !! p.
Proof.
  induction ps as [|q ps IH]; intros fs p; [done|]. cbn [foldl]. rewrite IH.
  destruct (decide (p = q)) as [->|Hne].
  - rewrite lookup_delete_eq. rewrite (bool_decide_eq_true_2 (q ∈ q :: ps)) by left.
    by case_bool_decide.
  - rewrite lookup_delete_ne by done.
    case_bool_decide as H1; case_bool_decide as H2; try done.
    + exfalso. apply H2. by right.
    + apply elem_of_cons in H2 as [->|]; done.
Qed.

(** ** Exceptions of the arithmetic: none carries the marker *)











(** ** The progress hook *)

Lemma bind_lift {A B} (r : result A) (k : A -> M B) w :
  (lift r ≫= k) w = match r with Ok a => k a w | Raise e => (w, Raise e) end.
Proof. by destruct r. Qed.




Lemma job_run {B} id w j (k : dict -> M B) :
  download_progress w !! id = Some j -> (job id ≫= k) w = k j w.
Proof. intros Hj. unfold job. st_unfold. by rewrite Hj. Qed.

Lemma cancel_requested_run {B} id w (k : bool -> M B) :
  (cancel_requested id ≫= k) w = k (flag_set w id) w.
Proof. done. Qed.



Lemma hook_downloading self d now racing w :
  flag_set w (video_id self) = false ->
  d !! "status" = Some (VStr "downloading") ->
  truthy (event_total d) = true -> truthy (event_downloaded d) = true ->
  ProgressHook_call self d now racing w =
    try_except
      (progress_update self (event_total d) (event_downloaded d) (event_speed d) now;;
       for_each racing serve;;
       cancelled ← cancel_requested (video_id self);
       if cancelled : bool then raise_cancelled else pass)
      (fun e => if contains "cancelled" (exc_msg e) then throw e else pass) w.
Proof.
  intros Hf Hs Ht Hd. unfold ProgressHook_call.
  rewrite cancel_requested_run, Hf. unfold getitem. rewrite Hs.
  rewrite bind_lift.
  change (py_eq (VStr "downloading") (VStr "downloading")) with true. cbv iota zeta.
  by rewrite Ht, Hd.
Qed.



Lemma hook_first_check self d now racing w :
  flag_set w (video_id self) = true ->
  ProgressHook_call self d now racing w
    = (w, Raise (PyExc Exception CANCEL_MESSAGE)).
Proof. intros Hf. unfold ProgressHook_call. by rewrite cancel_requested_run, Hf. Qed.

Lemma hook_recheck_swallowed self d now racing w w1 w2 :
  flag_set w (video_id self) = false ->
  d !! "status" = Some (VStr "downloading") ->
  truthy (event_total d) = true -> truthy (event_downloaded d) = true ->
  progress_update self (event_total d) (event_downloaded d) (event_speed d) now w
    = (w1, Ok tt) ->
  for_each racing serve w1 = (w2, Ok tt) ->
  flag_set w2 (video_id self) = true ->
  ProgressHook_call self d now racing w = (w2, Ok tt).
Proof.
  intros Hf Hs Ht Hd Hu Hr Hf2. rewrite hook_downloading by done.
  unfold try_except. unfold mbind at 1. unfold ST_bind at 1. rewrite Hu.
  unfold mbind at 1. unfold ST_bind at 1. rewrite Hr.
  rewrite cancel_requested_run, Hf2. done.
Qed.

(** C3 (what the code does).  A flag that is set when the hook is entered
    makes it raise, but the exception is a plain [Exception] whose text
    "Descarga cancelada por el usuario" lacks the marker [cancelled] that
    line 82 and the callers test.  A flag that is set only at the re-check
    of line 75 makes the hook raise the same exception inside its own
    [try]; the handler of line 81 does not find the marker and swallows it:
    the hook returns normally and the adapter call goes on.  The last
    conjunct runs that on the sample job, cancelled between the update and
    the re-check. *)
Theorem recheck_cancellation_swallowed :
  (forall self d now racing w,
     flag_set w (video_id self) = true ->
     ProgressHook_call self d now racing w
       = (w, Raise (PyExc Exception CANCEL_MESSAGE))) /\
  unmarked (PyExc Exception CANCEL_MESSAGE) /\
  (forall self d now racing w w1 w2,
     flag_set w (video_id self) = false ->
     d !! "status" = Some (VStr "downloading") ->
     truthy (event_total d) = true -> truthy (event_downloaded d) = true ->
     progress_update self (event_total d) (event_downloaded d) (event_speed d) now w
       = (w1, Ok tt) ->
     for_each racing serve w1 = (w2, Ok tt) ->
     flag_set w2 (video_id self) = true ->
     ProgressHook_call self d now racing w = (w2, Ok tt)) /\
  (let out := ProgressHook_call (sample_hook "video") (downloading_event 512 1024)
                sample_now [ReqCancel sample_id] submitted in
   flag_set submitted sample_id = false /\
   flag_set out.1 sample_id = true /\ out.2 = Ok tt).
Proof.
  split; [apply hook_first_check|]. split; [reflexivity|].
  split; [apply hook_recheck_swallowed|]. by vm_compute.
Qed.

(** ** Workers under cancellation *)

(** Whatever the extractor or the hook raises in the single-file worker is
    recorded as an error: lines 638-639 make no exception for the
    cancellation exception. *)
Lemma download_thread_records_every_exception j run w w1 e d :
  run_adapter {| video_id := job_id j; stage := "video";
                 start_time := hook_created run |} run w = (w1, Raise e) ->
  download_progress w1 !! job_id j = Some d ->
  download_thread j run w =
    (set_progress <[job_id j := update [("status", VStr "error");
                                        ("error", VStr (exc_msg e))] d]> w1,
     Ok tt).
Proof.
  intros Hrun Hd. unfold download_thread, try_except.
  unfold mbind at 1. unfold ST_bind at 1. rewrite Hrun.
  unfold job_update. by rewrite (job_run _ _ d).
Qed.

(** The handlers of lines 372-378 and 398-404, given the exception that the
    program itself raises on cancellation, record it as an error. *)
Lemma stage_failed_on_cancellation {A} id label w d :
  download_progress w !! id = Some d ->
  stage_failed (A:=A) id label (PyExc Exception CANCEL_MESSAGE) w =
    (set_progress <[id := <["error" := VStr (label +:+ CANCEL_MESSAGE)]>
                            (<["status" := VStr "error"]> d)]> w,
     Raise (PyExc Exception CANCEL_MESSAGE)).
Proof.
  intros Hd. unfold stage_failed, job_set, job_update.
  change (contains "cancelled" (exc_msg (PyExc Exception CANCEL_MESSAGE))) with false.
  cbn [negb when]. unfold mbind at 1. unfold ST_bind at 1.
  unfold mbind at 1. unfold ST_bind at 1.
  rewrite (job_run _ _ d) by done. unfold modify at 1.
  rewrite (job_run _ _ (<["status" := VStr "error"]> d))
    by (cbn [download_progress set_progress]; apply lookup_insert_eq).
  unfold modify, throw, lift, set_progress. cbn.
  by rewrite insert_insert_eq.
Qed.

(** C1 (what the code does).  The sample job is cancelled while the
    extractor downloads the video stream, while it downloads the audio
    stream, and while the encoder merges; the same for the single-file
    worker.  In all four runs the cancel flag is set before the worker's
    last write, and the job ends with status [error] and the text of the
    cancellation exception in its error field.  The undisturbed runs end
    with status [completed]. *)
Theorem cancelled_job_ends_in_error :
  verdict (download_and_merge sample_id (cancelled_run sample_video_path)
             (quiet_run sample_audio_path) quiet_encoder submitted)
    = (Some (VStr "error"), Some (VStr CANCEL_MESSAGE), true) /\
  verdict (download_and_merge sample_id (quiet_run sample_video_path)
             (cancelled_run sample_audio_path) quiet_encoder submitted)
    = (Some (VStr "error"), Some (VStr CANCEL_MESSAGE), true) /\
  verdict (download_and_merge sample_id (quiet_run sample_video_path)
             (quiet_run sample_audio_path) killed_encoder submitted)
    = (Some (VStr "error"), Some (VStr CANCEL_MESSAGE), true) /\
  verdict (download_thread sample_job (cancelled_run sample_video_path) submitted)
    = (Some (VStr "error"), Some (VStr CANCEL_MESSAGE), true) /\
  verdict (download_and_merge sample_id (quiet_run sample_video_path)
             (quiet_run sample_audio_path) quiet_encoder submitted)
    = (Some (VStr "completed"), None, false) /\
  verdict (download_thread sample_job (quiet_run sample_video_path) submitted)
    = (Some (VStr "completed"), None, false).
Proof. repeat split; vm_compute; reflexivity. Qed.

(** ** Job identifiers *)

Lemma new_video_id_inj t1 t2 id1 id2 :
  new_video_id t1 = Ok id1 -> new_video_id t2 = Ok id2 ->
  (id1 = id2 <-> py_int (VFloat t1) = py_int (VFloat t2)).
Proof.
  unfold new_video_id.
  destruct (py_int (VFloat t1)) as [n1|]; [|done].
  destruct (py_int (VFloat t2)) as [n2|]; [|done].
  cbn. intros [= <-] [= <-]. split.
  - intros Heq%(inj pretty). by rewrite Heq.
  - by intros [= ->].
Qed.

(** A submission that starts a worker registers a fresh state under the
    identifier made from the clock, replacing whatever was there. *)
Lemma download_started data now info w w' resp j :
  download data now info w = (w', Ok (resp, Some j)) ->
  new_video_id now = Ok (job_id j) /\
  exists d, download_progress w' = <[job_id j := d]> (download_progress w) /\
       d !! "status" = Some (VStr "starting") /\ d !! "error" = None /\
       d !! "is_audio" = Some (VBool (is_audio_only j)).
Proof.
  unfold download. st_unfold.
  destruct (negb (dict_truthy data) || _ || _); [by intros [= _ _]|].
  destruct (getitem data "itag") as [itag|]; [|by intros [= _ _]].
  destruct (new_video_id now) as [id|]; [|by intros [= _ _]].
  destruct info as [info|]; [|by intros [= _ _]].
  destruct (info_formats info) as [formats|]; [|by intros [= _ _]].
  destruct (find_format formats itag) as [f|].
  - destruct (dict_truthy f && py_eq (get f "vcodec") (VStr "none")).
    + intros [= <- <- <-]. split; [done|]. cbn [job_id is_audio_only].
      eexists. split; [reflexivity|]. unfold mkdict, update. cbn.
      by simplify_map_eq.
    + intros [= <- <- <-]. split; [done|]. cbn [job_id is_audio_only].
      eexists. split; [reflexivity|]. unfold mkdict, update. cbn.
      by simplify_map_eq.
  - by intros [= _ _].
Qed.

(** C8 (as stated, refuted).  The clock readings 1700000000.25 and
    1700000000.75 differ and give the same identifier "1700000000"; the
    audio job submitted at the second reading replaces the state of the video
    job submitted at the first, and the registry holds one entry. *)
Lemma ids_collide_within_a_second :
  first_reading <> second_reading /\
  new_video_id first_reading = Ok "1700000000" /\
  new_video_id second_reading = Ok "1700000000" /\
  job_field submitted "1700000000" "is_audio" = Some (VBool false) /\
  job_field after_two_submissions "1700000000" "is_audio" = Some (VBool true) /\
  size (download_progress after_two_submissions) = 1%nat /\
  ~ ids_never_collide.
Proof.
  assert (H : first_reading <> second_reading) by (vm_compute; discriminate).
  repeat split; try (vm_compute; reflexivity); [exact H|].
  intros Hc.
  apply (Hc first_reading second_reading "1700000000" "1700000000" H);
    vm_compute; reflexivity.
Qed.

(** C8 (amended).  Two submissions that start a worker get the decimal
    numerals of [int(time.time())] as identifiers; the identifiers differ
    exactly when the whole seconds of the two clock readings differ.  When
    they differ the second submission leaves the first job's state alone;
    when they are equal the state registered by the second submission
    replaces the first job's. *)
Theorem ids_distinct_iff_seconds_differ d1 d2 t1 t2 i1 i2 w w1 w2 r1 r2 j1 j2 :
  download d1 t1 i1 w = (w1, Ok (r1, Some j1)) ->
  download d2 t2 i2 w1 = (w2, Ok (r2, Some j2)) ->
  new_video_id t1 = Ok (job_id j1) /\ new_video_id t2 = Ok (job_id j2) /\
  (job_id j1 <> job_id j2 <-> py_int (VFloat t1) <> py_int (VFloat t2)) /\
  (job_id j1 <> job_id j2 ->
     download_progress w2 !! job_id j1 = download_progress w1 !! job_id j1) /\
  (job_id j1 = job_id j2 ->
     job_field w2 (job_id j1) "is_audio" = Some (VBool (is_audio_only j2)) /\
     job_field w2 (job_id j1) "status" = Some (VStr "starting")).
Proof.
  intros [H1 _]%download_started [H2 (d & Hw2 & Hs & _ & Ha)]%download_started.
  split; [done|]. split; [done|]. split; [|split].
  - by rewrite (new_video_id_inj t1 t2 _ _ H1 H2).
  - intros Hne. rewrite Hw2. by rewrite lookup_insert_ne.
  - intros Heq. unfold job_field. rewrite Hw2, Heq, lookup_insert_eq. done.
Qed.

(** ** Format resolution *)


(** Pairing the elements of a list with their keys. *)
Lemma keyed_spec {A K} (key : A -> result K) (l : list A) keyed :
  traverse (fun x => k ← key x; Ok (k, x)) l = Ok keyed ->
  keyed.*2 = l /\ Forall (fun p => key p.2 = Ok p.1) keyed.
Proof.
  revert keyed. induction l as [|f l IH]; intros keyed; cbn.
  - intros [= <-]. split; [done|constructor].
  - destruct (key f) as [k|] eqn:Hk; [|done]. cbn.
    destruct (traverse _ l) as [ks|]; [|done]. cbn. intros [= <-].
    destruct (IH ks eq_refl) as [Hl Hks]. split.
    + rewrite fmap_cons. cbn. by rewrite Hl.
    + constructor; [done|done].
Qed.



(** What yt-dlp stores under [filesize], a whole number or [None], is
    readable. *)
Lemma filesize_key_returns f :
  match f !! "filesize" with
  | None | Some VNone | Some (VInt _) | Some (VBool _) => True
  | _ => False
  end ->
  returns (filesize_key f) = true.
Proof.
  unfold filesize_key, size_key, get_default.
  destruct (f !! "filesize") as [[|b|z|x|s]|]; try done.
  - by destruct (truthy (VBool b)).
  - by destruct (truthy (VInt z)).
Qed.





(** An input on which [int] rejects a size: the call raises. *)
Lemma ensure_audio_video_format_unreadable_size `{Runtime} :
  returns (ensure_audio_video_format (VStr "137")
             [ mkdict [("format_id", VStr "137"); ("vcodec", VStr "avc1")];
               mkdict [("format_id", VStr "140"); ("vcodec", VStr "none");
                       ("acodec", VStr "mp4a");
                       ("filesize", VFloat (S754_infinity false))] ]) = false.
Proof. vm_compute. reflexivity. Qed.

(** ** The format listing *)

Lemma traverse_Ok {A B} (f : A -> result B) (l : list A) (ys : list B) :
  traverse f l = Ok ys <-> Forall2 (fun x y => f x = Ok y) l ys.
Proof.
  revert ys. induction l as [|x l IH]; intros ys; cbn.
  - split.
    + intros [= <-]. constructor.
    + intros Hf. by apply Forall2_nil_inv_l in Hf as ->.
  - split.
    + destruct (f x) as [y|] eqn:Hy; [|done]. cbn.
      destruct (traverse f l) as [ys'|]; [|done]. cbn. intros [= <-].
      constructor; [done|]. by apply IH.
    + intros Hf. apply Forall2_cons_inv_l in Hf as (y & ys' & Hy & Hys & ->).
      rewrite Hy. cbn. apply IH in Hys. rewrite Hys. done.
Qed.

Lemma traverse_returns_iff {A B} (f : A -> result B) (l : list A) :
  returns (traverse f l) = true <-> forall x, x ∈ l -> returns (f x) = true.
Proof.
  induction l as [|x l IH]; cbn.
  - split; [|done]. intros _ x Hx. by apply not_elem_of_nil in Hx.
  - destruct (f x) as [y|] eqn:Hy; cbn.
    + destruct (traverse f l) as [ys|]; cbn.
      * split; [|done]. intros _ z Hz. apply elem_of_cons in Hz as [->|Hz].
        -- by rewrite Hy.
        -- by apply IH.
      * split; [done|]. intros Hall. apply IH. intros z Hz. apply Hall.
        by apply list_elem_of_further.
    + split; [done|]. intros Hall. specialize (Hall x (list_elem_of_here _ _)).
      by rewrite Hy in Hall.
Qed.

Lemma insert_desc_perm {A} (x : (Z * pyval) * A) l : insert_desc x l ≡ₚ x :: l.
Proof.
  induction l as [|y l IH]; cbn; [done|].
  destruct (key_ltb x.1 y.1); [|done].
  rewrite IH. apply Permutation_swap.
Qed.

Lemma sort_desc_perm {A} (key : A -> result (Z * pyval)) l l' :
  sort_desc key l = Ok l' -> l' ≡ₚ l.
Proof.
  unfold sort_desc.
  destruct (traverse (fun x => k ← key x; Ok (k, x)) l) as [keyed|] eqn:Hk; [|done].
  cbn. destruct (traverse _ keyed); [|done]. cbn. intros [= <-].
  apply keyed_spec in Hk as [<- _]. apply fmap_Permutation.
  induction keyed as [|p keyed IH]; cbn; [done|].
  by rewrite insert_desc_perm, IH.
Qed.

(** Sorting raises exactly when a key cannot be computed or two keys cannot
    be compared. *)
Lemma sort_desc_returns {A} (key : A -> result (Z * pyval)) l :
  returns (sort_desc key l) = true <->
  (forall x, x ∈ l -> returns (key x) = true) /\
  (forall x y kx ky, x ∈ l -> y ∈ l -> key x = Ok kx -> key y = Ok ky ->
     returns (key_lt kx ky) = true).
Proof.
  unfold sort_desc.
  destruct (traverse (fun x => k ← key x; Ok (k, x)) l) as [keyed|] eqn:Hk; cbn.
  - pose proof Hk as Hk'. apply traverse_Ok in Hk'.
    assert (Hin : forall p, p ∈ keyed <-> p.2 ∈ l /\ key p.2 = Ok p.1).
    { clear Hk. induction Hk' as [|x p l keyed Hp _ IH].
      - intros p. split; [intros Hp; by apply not_elem_of_nil in Hp|].
        intros [Hp _]. by apply not_elem_of_nil in Hp.
      - destruct (key x) as [k|] eqn:Hkx; [|done]. cbn in Hp. injection Hp as <-.
        intros q. rewrite !elem_of_cons, IH. split.
        + intros [->|[Hq Hkq]]; cbn; [by split; [left|]|by split; [right|]].
        + intros [[Hq|Hq] Hkq]; [|by right].
          left. destruct q as [kq q]. cbn in *. subst q. congruence. }
    assert (Hall : forall x, x ∈ l -> returns (key x) = true).
    { assert (Hr : returns (traverse (fun x => k ← key x; Ok (k, x)) l) = true)
        by (by rewrite Hk).
      rewrite traverse_returns_iff in Hr.
      intros x Hx. specialize (Hr x Hx). by destruct (key x). }
    destruct (traverse (fun a => traverse (fun b => key_lt a.1 b.1) keyed) keyed)
      as [bs|] eqn:Hc; cbn.
    + split; [|done]. intros _. split; [done|].
      intros x y kx ky Hx Hy Hkx Hky.
      assert (Hr : returns (traverse (fun a => traverse (fun b => key_lt a.1 b.1) keyed)
                              keyed) = true) by by rewrite Hc.
      rewrite traverse_returns_iff in Hr.
      specialize (Hr (kx, x)). rewrite traverse_returns_iff in Hr.
      apply (Hr (proj2 (Hin (kx, x)) (conj Hx Hkx)) (ky, y)).
      by apply Hin.
    + split; [done|]. intros [_ Hcmp].
      assert (Hr : returns (traverse (fun a => traverse (fun b => key_lt a.1 b.1) keyed)
                              keyed) = true); [|by rewrite Hc in Hr].
      apply traverse_returns_iff. intros a Ha. apply traverse_returns_iff.
      intros b Hb. apply Hin in Ha as [Ha Hka]. apply Hin in Hb as [Hb Hkb].
      by apply (Hcmp a.2 b.2).
  - split; [done|]. intros [Hall _].
    assert (Hr : returns (traverse (fun x => k ← key x; Ok (k, x)) l) = true);
      [|by rewrite Hk in Hr].
    apply traverse_returns_iff.
    intros x Hx. specialize (Hall x Hx). by destruct (key x).
Qed.

Lemma sort_desc_subset {A} (key : A -> result (Z * pyval)) l l' :
  (forall x, x ∈ l' -> x ∈ l) ->
  returns (sort_desc key l) = true ->
  exists s, sort_desc key l' = Ok s /\ s ≡ₚ l'.
Proof.
  intros Hsub Hl. destruct (proj1 (sort_desc_returns key l) Hl) as [Hall Hcmp].
  assert (Hr : returns (sort_desc key l') = true).
  { apply sort_desc_returns. split.
    - intros x Hx. by apply Hall, Hsub.
    - intros x y kx ky Hx Hy. apply Hcmp; by apply Hsub. }
  destruct (sort_desc key l') as [s|] eqn:Hs; [|done].
  exists s. split; [done|]. by apply (sort_desc_perm key).
Qed.

Section Listing.
Context `{Runtime}.

Lemma process_loop_traverse formats : forall st,
  process_loop formats st =
  (infos ← traverse format_info formats;
   Ok (foldl (fun st i => classify i st) st infos)).
Proof.
  induction formats as [|f fs IH]; intros st; cbn; [done|].
  destruct (format_info f) as [i|]; cbn; [|done].
  rewrite IH. by destruct (traverse format_info fs).
Qed.

Lemma placed_step all st st' c v a c' v' a' x :
  placed all st c v a -> x ∈ all -> quality_key x ∉ seen_qualities st ->
  (c' ++ v' ++ a' ≡ₚ x :: (c ++ v ++ a))%list ->
  Forall (fun x => combined_entry x = true) c' ->
  Forall (fun x => video_only_entry x = true) v' ->
  Forall (fun x => audio_only_entry x = true) a' ->
  processed_formats st' = listing c' a' v' ->
  seen_qualities st' = {[quality_key x]} ∪ seen_qualities st ->
  placed all st' c' v' a'.
Proof.
  intros (Hl & Hc & Hv & Ha & Hnd & Hseen & Hfrom) Hx Hnew HP Hc' Hv' Ha' Hl' Hs'.
  repeat split; try done.
  - rewrite HP, fmap_cons. apply NoDup_cons. split; [|done].
    by rewrite <- Hseen.
  - rewrite Hs', HP, fmap_cons, elem_of_union, elem_of_singleton, elem_of_cons, Hseen.
    done.
  - rewrite Hs', HP, fmap_cons, elem_of_union, elem_of_singleton, elem_of_cons, Hseen.
    done.
  - intros y. rewrite HP, elem_of_cons. intros [->|Hy]; [done|by apply Hfrom].
Qed.

Lemma classify_placed all st c v a x :
  placed all st c v a -> x ∈ all ->
  exists c' v' a', placed all (classify x st) c' v' a'.
Proof.
  intros Hp Hx. pose proof Hp as (Hl & Hc & Hv & Ha & _).
  unfold classify.
  fold (combined_entry x) (video_only_entry x) (audio_only_entry x).
  destruct (combined_entry x) eqn:Ec; [|destruct (video_only_entry x) eqn:Ev;
    [|destruct (audio_only_entry x) eqn:Ea]]; unfold place;
    try (destruct (bool_decide _) eqn:Hk;
         [by exists c, v, a|apply bool_decide_eq_false in Hk]).
  - exists (c ++ [x])%list, v, a.
    apply (placed_step all st _ c v a _ _ _ x Hp Hx Hk); try done.
    + rewrite <- app_assoc. simpl. by rewrite <- Permutation_middle.
    + apply Forall_app. split; [done|by constructor].
    + cbn. rewrite Hl. unfold listing. by rewrite alter_insert_eq.
  - exists c, (v ++ [x])%list, a.
    apply (placed_step all st _ c v a _ _ _ x Hp Hx Hk); try done.
    + rewrite <- app_assoc. simpl. by rewrite <- !Permutation_middle.
    + apply Forall_app. split; [done|by constructor].
    + cbn. rewrite Hl. unfold listing.
      rewrite !alter_insert_ne by done. by rewrite alter_insert_eq.
  - exists c, v, (a ++ [x])%list.
    apply (placed_step all st _ c v a _ _ _ x Hp Hx Hk); try done.
    + rewrite !app_assoc. by rewrite <- Permutation_cons_append.
    + apply Forall_app. split; [done|by constructor].
    + cbn. rewrite Hl. unfold listing.
      rewrite alter_insert_ne by done. by rewrite alter_insert_eq.
  - by exists c, v, a.
Qed.

Lemma foldl_classify_placed all infos : forall st c v a,
  placed all st c v a -> (forall x, x ∈ infos -> x ∈ all) ->
  exists c' v' a', placed all (foldl (fun st i => classify i st) st infos) c' v' a'.
Proof.
  induction infos as [|x infos IH]; intros st c v a Hp Hall; cbn.
  - by exists c, v, a.
  - destruct (classify_placed all st c v a x Hp) as (c' & v' & a' & Hp').
    { apply Hall, list_elem_of_here. }
    apply (IH _ c' v' a' Hp'). intros y Hy. by apply Hall, list_elem_of_further.
Qed.

Lemma format_info_codecs f x :
  format_info f = Ok x ->
  get x "vcodec" = get_default f "vcodec" (VStr "none") /\
  get x "acodec" = get_default f "acodec" (VStr "none").
Proof.
  unfold format_info.
  destruct (if truthy (get f "filesize") then _ else _) as [size|]; [|done].
  cbn. intros [= <-]. unfold mkdict, update, get, get_default. cbn.
  by simplify_map_eq.
Qed.

Lemma filter_subset (p : dict -> bool) (l l' : list dict) :
  Forall (fun x => p x = true) l' -> (forall x, x ∈ l' -> x ∈ l) ->
  forall x, x ∈ l' -> x ∈ List.filter p l.
Proof.
  intros Hp Hsub x Hx. apply list_elem_of_In, filter_In. split.
  - by apply list_elem_of_In, Hsub.
  - by apply (proj1 (Forall_forall _ _) Hp).
Qed.

Lemma listing_sorted c a v c' a' v' :
  <["combined" := c']> (<["audioOnly" := a']> (<["videoOnly" := v']> (listing c a v)))
  = listing c' a' v'.
Proof.
  unfold listing. apply map_eq. intros k.
  destruct (decide (k = "combined")) as [->|Hc]; [by simplify_map_eq|].
  destruct (decide (k = "audioOnly")) as [->|Ha]; [by simplify_map_eq|].
  destruct (decide (k = "videoOnly")) as [->|Hv]; by simplify_map_eq.
Qed.

(** C10.  When every entry can be built and the entries of each class can
    be sorted, [process_formats] returns the three lists; every entry of
    "combined" has both codecs, every entry of "videoOnly" a video codec and
    no audio codec, every entry of "audioOnly" an audio codec and no video
    codec; no two entries of the three lists share the key built from quality
    and container, hence none share the pair; every entry was built from an
    input format, and no entry comes from a format without both codecs. *)
Theorem process_formats_partitions formats infos :
  traverse format_info formats = Ok infos ->
  sortable infos = true ->
  exists c v a,
    process_formats formats = Ok (listing c a v) /\
    Forall (fun x => combined_entry x = true) c /\
    Forall (fun x => video_only_entry x = true) v /\
    Forall (fun x => audio_only_entry x = true) a /\
    NoDup (quality_key <$> (c ++ v ++ a)%list) /\
    NoDup ((fun x => (get x "quality", get x "container")) <$> (c ++ v ++ a)%list) /\
    (forall x, x ∈ (c ++ v ++ a)%list -> x ∈ infos) /\
    (forall f x, f ∈ formats -> format_info f = Ok x ->
       carries_video f = false -> carries_audio f = false -> x ∉ (c ++ v ++ a)%list).
Proof.
  intros Hinfos Hsort. unfold process_formats.
  rewrite process_loop_traverse, Hinfos. cbn [mbind result_bind].
  set (st0 := {| seen_qualities := ∅; processed_formats := _ |}).
  assert (Hp0 : placed infos st0 [] [] []).
  { split; [done|]. do 4 (split; [constructor|]). split.
    - intros k. cbn. split; [|by intros ?%not_elem_of_nil].
      intros Hk. by apply not_elem_of_empty in Hk.
    - intros x Hx. by apply not_elem_of_nil in Hx. }
  destruct (foldl_classify_placed infos infos st0 [] [] [] Hp0) as (c & v & a & Hp);
    [done|].
  destruct Hp as (Hl & Hc & Hv & Ha & Hnd & _ & Hfrom).
  rewrite Hl.
  apply andb_true_iff in Hsort as [Hsort Hsa].
  apply andb_true_iff in Hsort as [Hsc Hsv].
  destruct (sort_desc_subset sort_key _ v (filter_subset video_only_entry infos v Hv
              (fun x Hx => Hfrom x ltac:(rewrite !elem_of_app; auto))) Hsv)
    as (v' & Hv' & HPv).
  destruct (sort_desc_subset sort_key _ a (filter_subset audio_only_entry infos a Ha
              (fun x Hx => Hfrom x ltac:(rewrite !elem_of_app; auto))) Hsa)
    as (a' & Ha' & HPa).
  destruct (sort_desc_subset sort_key _ c (filter_subset combined_entry infos c Hc
              (fun x Hx => Hfrom x ltac:(rewrite !elem_of_app; auto))) Hsc)
    as (c' & Hc' & HPc).
  assert (Hlv : listing c a v !!! "videoOnly" = v) by (by unfold listing; simplify_map_eq).
  assert (Hla : listing c a v !!! "audioOnly" = a) by (by unfold listing; simplify_map_eq).
  assert (Hlc : listing c a v !!! "combined" = c) by (by unfold listing; simplify_map_eq).
  rewrite Hlv, Hv'. cbn [mbind result_bind]. rewrite Hla, Ha'. cbn [mbind result_bind].
  rewrite Hlc, Hc'. cbn [mbind result_bind]. rewrite listing_sorted.
  assert (HP : (c' ++ v' ++ a' ≡ₚ c ++ v ++ a)%list) by (by rewrite HPc, HPv, HPa).
  assert (Hk : NoDup (quality_key <$> (c' ++ v' ++ a')%list)) by (by rewrite HP).
  exists c', v', a'. split; [done|].
  split; [by rewrite HPc|]. split; [by rewrite HPv|]. split; [by rewrite HPa|].
  split; [done|]. split; [|split].
  - apply (NoDup_fmap_1 (fun p => py_str p.1 +:+ "_" +:+ py_str p.2)).
    rewrite <- list_fmap_compose. exact Hk.
  - intros x. rewrite HP. apply Hfrom.
  - intros f x Hf Hx Hnv Hna Hin. rewrite HP in Hin.
    apply format_info_codecs in Hx as [Hxv Hxa].
    unfold carries_video in Hnv. unfold carries_audio in Hna.
    rewrite <- Hxv in Hnv. rewrite <- Hxa in Hna.
    rewrite !elem_of_app in Hin. destruct Hin as [Hin|[Hin|Hin]].
    + apply (proj1 (Forall_forall _ _) Hc) in Hin. unfold combined_entry in Hin.
      by rewrite Hnv in Hin.
    + apply (proj1 (Forall_forall _ _) Hv) in Hin. unfold video_only_entry in Hin.
      by rewrite Hnv in Hin.
    + apply (proj1 (Forall_forall _ _) Ha) in Hin. unfold audio_only_entry in Hin.
      rewrite Hna in Hin. by rewrite andb_false_r in Hin.
Qed.
End Listing.

Lemma returns_Ok {A} (r : result A) (d : A) :
  returns r = true -> r = Ok (match r with Ok x => x | Raise _ => d end).
Proof. by destruct r. Qed.

(** ** The statements above on the sample session *)

(** The sample job is cancelled right after its submission. *)
Lemma cancel_download_spec_witness :
  download_progress submitted !! sample_id <> None /\
  http_status (cancel_download sample_id submitted).2 = Some 200 /\
  job_field (cancel_download sample_id submitted).1 sample_id "status"
    = Some (VStr "cancelled") /\
  job_field (cancel_download sample_id submitted).1 sample_id "progress"
    = Some (VInt 0).
Proof.
  assert (H : download_progress submitted !! sample_id <> None)
    by (vm_compute; discriminate).
  split; [exact H|]. exact (proj2 (cancel_download_spec submitted sample_id) H).
Defined.

(** The sweeper runs two hours after the sample job was completed. *)
Lemma cleanup_downloads_spec_witness :
  let w' := (cleanup_downloads two_hours_later delivered).1 in
  gone w' sample_id /\
  (get_progress sample_id w').2 = Ok (jsonify 200 [("status", VStr "not_found")]) /\
  files w' !! ("downloads/" +:+ "video_1700000000.mp4") = None.
Proof.
  pose proof (cleanup_downloads_spec two_hours_later delivered) as [H1 H2].
  cbv zeta. split; [|split].
  - eapply H1; [vm_compute; reflexivity|]. vm_compute. apply list_elem_of_here.
  - eapply H1; [vm_compute; reflexivity|]. vm_compute. apply list_elem_of_here.
  - eapply H2; [split; [discriminate|reflexivity]|vm_compute; reflexivity|reflexivity].
Defined.

(** A video job and, two hours later, an audio job. *)
Lemma ids_distinct_iff_seconds_differ_witness :
  new_video_id first_reading = Ok "1700000000" /\
  new_video_id two_hours_later = Ok "1700007202" /\
  ("1700000000" <> "1700007202" <->
     py_int (VFloat first_reading) <> py_int (VFloat two_hours_later)).
Proof.
  destruct (download (sample_request "22") first_reading (Ok sample_info) empty_world)
    as [w1 [[r1 [j1|]]|]] eqn:E1; try (vm_compute in E1; discriminate).
  destruct (download (sample_request "140") two_hours_later (Ok sample_info) w1)
    as [w2 [[r2 [j2|]]|]] eqn:E2.
  2,3: (revert E2; vm_compute in E1; injection E1 as <- _ _; vm_compute;
        discriminate).
  pose proof (ids_distinct_iff_seconds_differ _ _ _ _ _ _ _ _ _ _ _ _ _ E1 E2)
    as (H1 & H2 & H3 & _).
  vm_compute in E1. injection E1 as <- <- <-.
  vm_compute in E2. injection E2 as <- <- <-.
  exact (conj H1 (conj H2 H3)).
Defined.


(** The catalogue: the storyboard and the second m4a stream are left out. *)
Lemma process_formats_partitions_witness :
  traverse format_info catalogue = Ok catalogue_infos /\
  sortable catalogue_infos = true /\
  exists c v a,
    @process_formats sample_runtime catalogue = Ok (listing c a v) /\
    itags c = [VStr "22"] /\ itags v = [VStr "137"] /\
    itags a = [VStr "251"; VStr "139"].
Proof.
  assert (H1 : traverse format_info catalogue = Ok catalogue_infos).
  { apply (returns_Ok (traverse format_info catalogue) []). vm_compute. reflexivity. }
  assert (H2 : sortable catalogue_infos = true) by (vm_compute; reflexivity).
  split; [exact H1|]. split; [exact H2|].
  destruct (@process_formats_partitions sample_runtime catalogue catalogue_infos H1 H2)
    as (c & v & a & Hrun & _).
  exists c, v, a. split; [exact Hrun|].
  pose proof (f_equal (fun r => match r with
                                | Ok m => (itags <$> m !! "combined",
                                           itags <$> m !! "videoOnly",
                                           itags <$> m !! "audioOnly")
                                | Raise _ => (None, None, None)
                                end) Hrun) as Hl.
  vm_compute in Hl. injection Hl as Hc Hv Ha.
  split; [exact (eq_sym Hc)|]. split; [exact (eq_sym Hv)|exact (eq_sym Ha)].
Defined.

(** ** Submission *)

Lemma validate_format_find formats itag :
  validate_format formats itag = false <-> find_format formats itag = None.
Proof.
  unfold validate_format, find_format.
  induction formats as [|f fs IH]; cbn; [done|].
  destruct (py_eq (get f "format_id") itag); cbn; [done|]. exact IH.
Qed.

(** What [download] answers to a request whose body is a JSON object: it
    never raises; the status is 400 exactly when [url] or [itag] is missing
    from the object, 200 exactly when a worker was started, and 500 otherwise;
    unless the answer is 200 nothing is changed. *)
Theorem download_answers data now info w :
  exists resp started,
    (download data now info w).2 = Ok (resp, started) /\
    (status_code resp = 400 <-> data !! "url" = None \/ data !! "itag" = None) /\
    (status_code resp = 200 <-> is_Some started) /\
    (status_code resp = 200 \/ status_code resp = 400 \/ status_code resp = 500) /\
    (status_code resp <> 200 -> (download data now info w).1 = w).
Proof.
  unfold download. st_unfold.
  destruct (negb (dict_truthy data) || negb (bool_decide (is_Some (data !! "url")))
            || negb (bool_decide (is_Some (data !! "itag")))) eqn:Hc.
  { eexists _, None. cbn. split; [done|].
    split; [split; [intros _|done]|].
    - apply orb_true_iff in Hc as [Hc|Hc]; [apply orb_true_iff in Hc as [Hc|Hc]|].
      + apply negb_true_iff, negb_false_iff, bool_decide_eq_true in Hc. subst data.
        left. apply lookup_empty.
      + apply negb_true_iff, bool_decide_eq_false in Hc. left.
        by apply eq_None_not_Some.
      + apply negb_true_iff, bool_decide_eq_false in Hc. right.
        by apply eq_None_not_Some.
    - split; [split; [done|by intros [? ?]]|]. split; [auto|done]. }
  apply orb_false_iff in Hc as [Hc Hi]. apply orb_false_iff in Hc as [_ Hu].
  apply negb_false_iff, bool_decide_eq_true in Hu as [url Hu].
  apply negb_false_iff, bool_decide_eq_true in Hi as [itag Hi].
  rewrite Hu, Hi. unfold getitem. rewrite Hi.
  assert (Hbad : forall (e : pyexc) (w0 : World),
    w0 = w ->
    exists resp started,
      (w0, Ok (jsonify 500 [("success", VBool false); ("error", VStr (exc_msg e))],
               @None Job)).2 = Ok (resp, started) /\
      (status_code resp = 400 <-> Some url = None \/ Some itag = None) /\
      (status_code resp = 200 <-> is_Some started) /\
      (status_code resp = 200 \/ status_code resp = 400 \/ status_code resp = 500) /\
      (status_code resp <> 200 ->
         (w0, Ok (jsonify 500 [("success", VBool false); ("error", VStr (exc_msg e))],
                  @None Job)).1 = w)).
  { intros e w0 ->. eexists _, None. cbn. split; [done|].
    split; [split; [done|by intros [|]]|]. split; [split; [done|by intros [? ?]]|].
    split; [auto|done]. }
  destruct (new_video_id now) as [id|e]; [|by apply Hbad].
  destruct info as [info|e]; [|by apply Hbad].
  destruct (info_formats info) as [formats|]; [|by apply Hbad].
  cbn.
  destruct (find_format formats itag) as [f|]; [|by apply Hbad].
  destruct (dict_truthy f && py_eq (get f "vcodec") (VStr "none"));
    cbn; eexists _, (Some _); cbn;
    (split; [done|]); (split; [split; [done|by intros [|]]|]);
    (split; [split; [by eexists|done]|]); (split; [auto|done]).
Qed.

(** An identifier that [validate_format] does not find is treated in two
    ways: [ensure_audio_video_format] falls back to "best", while a
    submission with it fails at line 590 with status 500 and registers
    nothing. *)
Theorem unknown_itag `{Runtime} formats itag :
  validate_format formats itag = false ->
  ensure_audio_video_format itag formats = Ok (VStr "best") /\
  forall data now fields w id,
    is_Some (data !! "url") -> data !! "itag" = Some itag ->
    new_video_id now = Ok id ->
    download data now (Ok {| info_fields := fields; info_formats := Some formats |}) w
      = (w, Ok (NO_FORMAT, None)).
Proof.
  intros Hv%validate_format_find. split.
  - unfold ensure_audio_video_format. by rewrite Hv.
  - intros data now fields w id Hu Hi Hid. unfold download. st_unfold.
    assert (Hd : dict_truthy data = true).
    { unfold dict_truthy. apply negb_true_iff, bool_decide_eq_false.
      intros ->. by rewrite lookup_empty in Hi. }
    rewrite Hd, !bool_decide_eq_true_2 by (done || by rewrite Hi).
    cbn [negb orb]. unfold getitem. rewrite Hi, Hid. cbn. by rewrite Hv.
Qed.

Lemma unknown_itag_witness :
  validate_format sample_formats (VStr "999") = false /\
  @ensure_audio_video_format sample_runtime (VStr "999") sample_formats
    = Ok (VStr "best") /\
  (download (sample_request "999") first_reading (Ok sample_info) empty_world).2
    = Ok (NO_FORMAT, None).
Proof.
  assert (Hv : validate_format sample_formats (VStr "999") = false)
    by (vm_compute; reflexivity).
  destruct (@unknown_itag sample_runtime sample_formats (VStr "999") Hv) as [He Hd].
  split; [exact Hv|]. split; [exact He|].
  refine (f_equal snd (Hd (sample_request "999") first_reading (info_fields sample_info)
                          empty_world "1700000000" _ _ _)).
  - vm_compute. by eexists.
  - vm_compute. reflexivity.
  - vm_compute. reflexivity.
Defined.

(** ** Job identifiers and the files of a job *)

Lemma pretty_N_char_numeral x : numeral_char (pretty_N_char x) = true.
Proof. unfold pretty_N_char. by repeat case_match. Qed.

Lemma pretty_N_go_numeral x : forall s,
  numeral s = true -> numeral (pretty_N_go x s) = true.
Proof.
  induction (N.lt_wf_0 x) as [x _ IH]; intros s Hs.
  assert (x = 0 \/ 0 < x)%N as [->|Hx] by lia.
  - by rewrite pretty_N_go_0.
  - rewrite pretty_N_go_step by done. apply IH.
    + by apply N.div_lt.
    + unfold numeral. cbn [list_ascii_of_string forallb].
      by rewrite pretty_N_char_numeral.
Qed.

Lemma pretty_Z_numeral (z : Z) : numeral (pretty z) = true.
Proof.
  assert (Hp : forall p : positive, numeral (pretty p) = true).
  { intros p. unfold pretty, pretty_positive, pretty, pretty_N.
    case_decide; [done|]. by apply pretty_N_go_numeral. }
  destruct z as [|p|p]; [done|apply Hp|].
  unfold pretty, pretty_Z.
  change ("-" +:+ pretty p) with (String "-" (pretty p)).
  unfold numeral. cbn [list_ascii_of_string forallb]. apply Hp.
Qed.

Lemma new_video_id_numeral now id : new_video_id now = Ok id -> numeral id = true.
Proof.
  unfold new_video_id. destruct (py_int (VFloat now)) as [n|]; [|done].
  cbn. intros [= <-]. apply pretty_Z_numeral.
Qed.

Lemma list_ascii_of_string_app (a b : string) :
  list_ascii_of_string (a +:+ b) = (list_ascii_of_string a ++ list_ascii_of_string b)%list.
Proof.
  induction a as [|c a IH]; [done|].
  change (String c a +:+ b) with (String c (a +:+ b)). cbn. by rewrite IH.
Qed.

(** A pattern matches its literal start character by character. *)
Lemma fnmatch_literal (lit pat name : list ascii) :
  forallb (fun c => negb (Ascii.eqb c "*") && negb (Ascii.eqb c "?")) lit = true ->
  fnmatch (lit ++ pat) (lit ++ name) = fnmatch pat name.
Proof.
  induction lit as [|c lit IH]; [done|]. cbn [forallb].
  intros [[Hs Hq]%andb_true_iff Hl]%andb_true_iff.
  apply negb_true_iff in Hs. cbn [app fnmatch]. rewrite Hs. cbv beta iota.
  rewrite (Ascii.eqb_refl c). destruct (Ascii.eqb c "?"); cbn [orb andb]; by apply IH.
Qed.

Lemma fnmatch_star (name : list ascii) : fnmatch ["*"%char] name = true.
Proof.
  induction name as [|c name IH]; [done|].
  change (fnmatch ["*"%char] (c :: name))
    with (fnmatch [] (c :: name) || fnmatch ["*"%char] name).
  by rewrite IH, orb_true_r.
Qed.

Lemma numeral_literal (s : string) :
  numeral s = true ->
  forallb (fun c => negb (Ascii.eqb c "*") && negb (Ascii.eqb c "?"))
          (list_ascii_of_string s) = true.
Proof.
  unfold numeral. induction (list_ascii_of_string s) as [|c l IH]; [done|].
  cbn [forallb]. intros [Hc Hl]%andb_true_iff. rewrite (IH Hl), andb_true_r.
  unfold numeral_char in Hc.
  destruct (Ascii.eqb c "*") eqn:E1; [apply Ascii.eqb_eq in E1; by subst c|].
  destruct (Ascii.eqb c "?") eqn:E2; [apply Ascii.eqb_eq in E2; by subst c|]. done.
Qed.

Lemma numeral_no_slash (s : string) : numeral s = true -> contains "/" s = false.
Proof.
  unfold numeral. induction s as [|c s IH]; [done|].
  cbn [list_ascii_of_string forallb]. intros [Hc Hl]%andb_true_iff.
  cbn [contains]. rewrite (IH Hl), orb_false_r. cbn [String.prefix].
  destruct (ascii_dec "/" c) as [<-|]; [|done]. vm_compute in Hc. discriminate.
Qed.

Lemma elem_of_glob fs pattern p :
  p ∈ glob fs DOWNLOAD_FOLDER pattern <->
  is_Some (fs !! p) /\ globbed pattern p = true.
Proof.
  unfold glob, globbed. rewrite list_elem_of_fmap.
  change (DOWNLOAD_FOLDER +:+ "/") with "downloads/".
  split.
  - intros (name & -> & Hn). apply list_elem_of_filter in Hn as [Hm Hn].
    apply elem_of_listdir in Hn as [[Hne Hsl] Hf].
    rewrite (path_join_direct name Hsl).
    change (DOWNLOAD_FOLDER +:+ "/" +:+ name) with ("downloads/" +:+ name) in Hf.
    split; [done|].
    apply andb_true_iff in Hm as [Hm Hdot].
    rewrite prefix_app, (drop_chars_app "downloads/" name), Hsl, Hm, Hdot.
    apply String.eqb_neq in Hne. by rewrite Hne.
  - intros [Hf Hg]. set (name := drop_chars (String.length "downloads/") p) in *.
    apply andb_true_iff in Hg as [Hg Hdot]. apply andb_true_iff in Hg as [Hg Hm].
    apply andb_true_iff in Hg as [Hg Hsl]. apply andb_true_iff in Hg as [Hpre Hne].
    apply negb_true_iff in Hsl. apply negb_true_iff, String.eqb_neq in Hne.
    apply prefix_drop in Hpre. fold name in Hpre.
    exists name. split; [by rewrite (path_join_direct name Hsl)|].
    apply list_elem_of_filter. split; [by rewrite Hm, Hdot|].
    apply elem_of_listdir. split; [done|].
    change (DOWNLOAD_FOLDER +:+ "/" +:+ name) with ("downloads/" +:+ name).
    by rewrite <- Hpre.
Qed.

Lemma try_remove_run p w :
  try_except (os_remove p) (fun _ => pass) w = (set_files (delete p) w, Ok tt).
Proof.
  unfold os_remove, path_exists. st_unfold.
  destruct (bool_decide (is_Some (files w !! p))) eqn:Hp; [done|].
  apply bool_decide_eq_false in Hp. apply eq_None_not_Some in Hp.
  unfold set_files. rewrite (delete_id _ _ Hp). by destruct w.
Qed.

Lemma for_each_try_remove ps : forall w,
  for_each ps (fun file => try_except (os_remove file) (fun _ => pass)) w =
    (set_files (fun fs => foldl (fun fs p => delete p fs) fs ps) w, Ok tt).
Proof.
  induction ps as [|p ps IH]; intros w; [by destruct w|].
  cbn [for_each]. unfold mbind, ST_bind. rewrite try_remove_run, IH.
  by destruct w.
Qed.

Lemma remove_patterns_run patterns : forall w,
  for_each patterns (fun pattern =>
     w ← get_state;
     for_each (glob (files w) DOWNLOAD_FOLDER pattern) (fun file =>
       try_except (os_remove file) (fun _ => pass))) w
  = (set_files (without_partial_files patterns) w, Ok tt).
Proof.
  induction patterns as [|pat pats IH]; intros w; [by destruct w|].
  cbn [for_each]. unfold mbind at 1, ST_bind at 1. unfold mbind at 1, ST_bind at 1.
  unfold get_state at 1. rewrite for_each_try_remove, IH. by destruct w.
Qed.

Lemma remove_partial_files_run id w :
  remove_partial_files id w
    = (set_files (without_partial_files (cancel_patterns id)) w, Ok tt).
Proof. unfold remove_partial_files, try_except. by rewrite remove_patterns_run. Qed.

Lemma without_partial_files_lookup patterns : forall fs p,
  without_partial_files patterns fs !! p =
    if existsb (fun pattern => globbed pattern p) patterns then None else fs !! p.
Proof.
  induction patterns as [|pat pats IH]; intros fs p; [done|].
  unfold without_partial_files in *. cbn [foldl existsb]. rewrite IH.
  rewrite foldl_delete_lookup.
  destruct (globbed pat p) eqn:Hg; cbn [orb].
  - destruct (existsb _ pats); [done|].
    case_bool_decide as Hin; [done|].
    destruct (fs !! p) as [f|] eqn:Hf; [|done].
    exfalso. apply Hin, elem_of_glob. by rewrite Hf.
  - case_bool_decide as Hin; [|done].
    apply elem_of_glob in Hin as [_ Hin]. congruence.
Qed.

Lemma cancel_download_with w id d (F : filesystem -> filesystem) :
  download_progress w !! id = Some d ->
  (forall s, remove_partial_files id s = (set_files F s, Ok tt)) ->
  cancel_download id w =
    ({| download_progress := <[id := cancelled_job d]> (download_progress w);
        download_processes := delete id (download_processes w);
        download_threads := download_threads w ∖ {[id]};
        download_cancel_flags := <[id := true]> (download_cancel_flags w);
        files := F (files w) |},
     Ok (jsonify 200 [("success", VBool true); ("message", VStr "Descarga cancelada");
                      ("status", VStr "cancelled")])).
Proof.
  intros Hd HF. unfold cancel_download, registered, job_update, job.
  st_unfold. rewrite Hd. simpl. rewrite Hd.
  rewrite terminate_process_run, HF.
  simpl. rewrite lookup_insert_eq. simpl.
  unfold set_files, set_processes, set_progress, set_cancel_flags, set_threads; simpl.
  rewrite insert_insert_eq.
  destruct (bool_decide (id ∈ download_threads w)) eqn:Hin; [done|].
  apply bool_decide_eq_false in Hin.
  do 2 f_equal. symmetry. by apply difference_singleton_notin.
Qed.

Lemma cancel_download_run w id d :
  download_progress w !! id = Some d ->
  cancel_download id w =
    ({| download_progress := <[id := cancelled_job d]> (download_progress w);
        download_processes := delete id (download_processes w);
        download_threads := download_threads w ∖ {[id]};
        download_cancel_flags := <[id := true]> (download_cancel_flags w);
        files := without_partial_files (cancel_patterns id) (files w) |},
     Ok (jsonify 200 [("success", VBool true); ("message", VStr "Descarga cancelada");
                      ("status", VStr "cancelled")])).
Proof.
  intros Hd. apply (cancel_download_with w id d _ Hd).
  intros s. apply remove_partial_files_run.
Qed.

(** [cancel_download] of a registered job deletes the files of the download
    folder whose name matches one of the six patterns, and no other file. *)
Theorem cancel_download_files w id p :
  is_Some (download_progress w !! id) ->
  files (cancel_download id w).1 !! p =
    if partial_file id p then None else files w !! p.
Proof.
  intros [d Hd]. rewrite (cancel_download_run w id d Hd). cbn [fst files].
  apply without_partial_files_lookup.
Qed.

Lemma is_Some_bool {A} (o : option A) :
  match o with Some _ => true | None => false end = true -> is_Some o.
Proof. destruct o; [by eexists|done]. Qed.

Lemma cancel_download_files_witness :
  files (cancel_download "1700000000" audio_in_progress).1
    !! "downloads/1700000000_temp.mp3" = None /\
  files (cancel_download "1700000000" audio_in_progress).1
    !! "downloads/1700000000_temp" = Some {| mtime := sample_now |}.
Proof.
  assert (Hreg : is_Some (download_progress audio_in_progress !! "1700000000"))
    by (apply is_Some_bool; vm_compute; reflexivity).
  split.
  - refine (eq_trans (cancel_download_files _ _ _ Hreg) _). vm_compute. reflexivity.
  - refine (eq_trans (cancel_download_files _ _ _ Hreg) _). vm_compute. reflexivity.
Defined.

Lemma contains_slash_app (a b : string) :
  contains "/" (a +:+ b) = contains "/" a || contains "/" b.
Proof.
  induction a as [|c a IH].
  - change ("" +:+ b) with b. by destruct b.
  - change (String c a +:+ b) with (String c (a +:+ b)).
    cbn [contains String.prefix]. rewrite IH.
    destruct (ascii_dec "/" c); [by destruct (a +:+ b), a|].
    done.
Qed.

Lemma globbed_direct pattern name :
  name <> "" -> contains "/" name = false ->
  globbed pattern ("downloads/" +:+ name) =
    fnmatch (list_ascii_of_string pattern) (list_ascii_of_string name)
    && (negb (String.prefix "." name) || String.prefix "." pattern).
Proof.
  intros Hne Hsl. unfold globbed.
  change (DOWNLOAD_FOLDER +:+ "/") with "downloads/".
  rewrite prefix_app, (drop_chars_app "downloads/" name), Hsl.
  apply String.eqb_neq in Hne. by rewrite Hne.
Qed.

Lemma numeral_head c s :
  numeral (String c s) = true ->
  numeral s = true /\ c <> "."%char /\ c <> "*"%char /\ c <> "?"%char /\
  c <> "v"%char /\ c <> "a"%char /\ c <> "t"%char /\ c <> "_"%char.
Proof.
  unfold numeral. cbn [list_ascii_of_string forallb].
  intros [Hc Hs]%andb_true_iff. split; [done|].
  repeat split; intros ->; vm_compute in Hc; discriminate.
Qed.

Lemma fnmatch_head_mismatch c pat name :
  c <> "*"%char -> c <> "?"%char ->
  match name with [] => True | d :: _ => c <> d end ->
  fnmatch (c :: pat) name = false.
Proof.
  intros Hs Hq Hd. cbn [fnmatch].
  apply Ascii.eqb_neq in Hs. rewrite Hs.
  destruct name as [|d name]; [done|].
  apply Ascii.eqb_neq in Hq. apply Ascii.eqb_neq in Hd. by rewrite Hq, Hd.
Qed.

Lemma partial_files_of_job id :
  numeral id = true ->
  partial_file id ("downloads/video_" +:+ id +:+ ".mp4") = true /\
  partial_file id ("downloads/" +:+ id +:+ "_final.mp3") = true /\
  partial_file id ("downloads/" +:+ id +:+ "_temp.mp3") = true /\
  partial_file id ("downloads/" +:+ id +:+ "_temp") = false.
Proof.
  intros Hn. pose proof (numeral_no_slash id Hn) as Hsl.
  pose proof (numeral_literal id Hn) as Hlit.
  assert (Hdot : forall s, String.prefix "." (id +:+ String "_" s) = false).
  { intros s. destruct id as [|c id']; [done|].
    apply numeral_head in Hn as (_ & Hc & _).
    change (String c id' +:+ ?s) with (String c (id' +:+ s)). cbn [String.prefix].
    by destruct (ascii_dec "." c). }
  assert (Hne : forall s, id +:+ String "_" s <> "") by (intros s; by destruct id).
  assert (Hns : forall s, contains "/" s = false ->
                          contains "/" (id +:+ s) = false).
  { intros s Hs. by rewrite contains_slash_app, Hsl, Hs. }
  unfold partial_file, cancel_patterns. cbn [existsb].
  split; [|split; [|split]].
  - change ("downloads/video_" +:+ id +:+ ".mp4")
      with ("downloads/" +:+ ("video_" +:+ id +:+ ".mp4")).
    rewrite globbed_direct; [|done|].
    2:{ change ("video_" +:+ id +:+ ".mp4") with ("video_" +:+ (id +:+ ".mp4")).
        by rewrite contains_slash_app, (Hns ".mp4"). }
    rewrite !list_ascii_of_string_app, !app_assoc, fnmatch_literal.
    + done.
    + rewrite forallb_app, Hlit. done.
  - rewrite !globbed_direct by (try apply Hne; by apply Hns).
    rewrite !Hdot. cbn [negb orb andb]. rewrite !andb_true_r.
    rewrite !(list_ascii_of_string_app id), (fnmatch_literal _ _ _ Hlit).
    by rewrite !orb_true_r.
  - rewrite !globbed_direct by (try apply Hne; by apply Hns).
    rewrite !Hdot. cbn [negb orb andb]. rewrite !andb_true_r.
    rewrite !(list_ascii_of_string_app id), !(fnmatch_literal _ _ _ Hlit).
    by rewrite !orb_true_r.
  - rewrite !globbed_direct by (try apply Hne; by apply Hns).
    rewrite !Hdot. cbn [negb orb andb]. rewrite !andb_true_r.
    rewrite !(list_ascii_of_string_app id), !(fnmatch_literal _ _ _ Hlit).
    assert (Hhead : forall c pat, c <> "*"%char -> c <> "?"%char ->
              c <> "_"%char -> (forall d s, id = String d s -> c <> d) ->
              fnmatch (c :: pat) (list_ascii_of_string id ++ list_ascii_of_string "_temp")
              = false).
    { intros c pat H1 H2 H3 H4. apply fnmatch_head_mismatch; [done..|].
      destruct id as [|d s]; cbn; [done|]. by apply (H4 d s). }
    assert (Hv : forall d s, id = String d s ->
              "v"%char <> d /\ "a"%char <> d /\ "t"%char <> d).
    { intros d s ->. apply numeral_head in Hn as (_ & _ & _ & _ & Hv & Ha & Ht & _).
      repeat split; congruence. }
    change (list_ascii_of_string ("video_" +:+ id +:+ ".*"))
      with ("v"%char :: list_ascii_of_string ("ideo_" +:+ id +:+ ".*")).
    change (list_ascii_of_string ("audio_" +:+ id +:+ ".*"))
      with ("a"%char :: list_ascii_of_string ("udio_" +:+ id +:+ ".*")).
    change (list_ascii_of_string ("temp_video_" +:+ id +:+ ".*"))
      with ("t"%char :: list_ascii_of_string ("emp_video_" +:+ id +:+ ".*")).
    change (list_ascii_of_string ("temp_audio_" +:+ id +:+ ".*"))
      with ("t"%char :: list_ascii_of_string ("emp_audio_" +:+ id +:+ ".*")).
    rewrite !Hhead; try done; intros d s E; by destruct (Hv d s E) as (? & ? & ?).
Qed.

Lemma download_job data now info w w' resp j :
  download data now info w = (w', Ok (resp, Some j)) ->
  numeral (job_id j) = true /\
  (is_audio_only j = true /\
   final_path j = "downloads/" +:+ job_id j +:+ "_final.mp3" /\
   temp_path j = "downloads/" +:+ job_id j +:+ "_temp"
   \/ is_audio_only j = false /\
      final_path j = "downloads/video_" +:+ job_id j +:+ ".mp4").
Proof.
  unfold download. st_unfold.
  destruct (negb (dict_truthy data) || _ || _); [by intros [= _ _]|].
  destruct (getitem data "itag") as [itag|]; [|by intros [= _ _]].
  destruct (new_video_id now) as [id|] eqn:Hid; [|by intros [= _ _]].
  apply new_video_id_numeral in Hid.
  assert (Hs : forall s, contains "/" s = false -> contains "/" (id +:+ s) = false).
  { intros s Hs. by rewrite contains_slash_app, (numeral_no_slash id Hid), Hs. }
  destruct info as [info|]; [|by intros [= _ _]].
  destruct (info_formats info) as [formats|]; [|by intros [= _ _]].
  destruct (find_format formats itag) as [f|]; [|by intros [= _ _]].
  destruct (dict_truthy f && py_eq (get f "vcodec") (VStr "none")).
  - intros [= <- <- <-]. cbn. split; [done|]. left.
    rewrite !path_join_direct by (by apply Hs). done.
  - intros [= <- <- <-]. cbn. split; [done|]. right. split; [done|].
    rewrite path_join_direct; [done|].
    change ("video_" +:+ id +:+ ".mp4") with ("video_" +:+ (id +:+ ".mp4")).
    by rewrite contains_slash_app, (Hs ".mp4").
Qed.

(** Cancelling a submitted job deletes its artifact: in whatever state the
    job is still registered, after [cancel_download] the file at its
    [final_path] does not exist, nor the converted audio.  The raw download of
    an audio job, [<id>_temp], matches none of the patterns and is left as it
    was. *)
Theorem cancel_deletes_artifact data now info w0 w1 resp j w :
  download data now info w0 = (w1, Ok (resp, Some j)) ->
  is_Some (download_progress w !! job_id j) ->
  let w' := (cancel_download (job_id j) w).1 in
  files w' !! final_path j = None /\
  (is_audio_only j = true ->
     files w' !! (temp_path j +:+ ".mp3") = None /\
     files w' !! temp_path j = files w !! temp_path j).
Proof.
  intros [Hn Hj]%download_job [d Hd]. cbn zeta.
  rewrite (cancel_download_run w _ d Hd). cbn [fst files].
  destruct (partial_files_of_job _ Hn) as (Hv & Hf & Ht & Hr).
  unfold partial_file in Hv, Hf, Ht, Hr.
  destruct Hj as [(Ha & -> & ->)|(Ha & ->)].
  - rewrite !without_partial_files_lookup, Hf, Hr. split; [done|]. intros _.
    split; [|done].
    assert (("downloads/" +:+ job_id j +:+ "_temp") +:+ ".mp3"
            = "downloads/" +:+ job_id j +:+ "_temp.mp3") as ->
      by (by rewrite !string_app_assoc).
    by rewrite Ht.
  - rewrite without_partial_files_lookup, Hv. split; [done|]. by rewrite Ha.
Qed.

Lemma cancel_deletes_artifact_witness :
  let w' := (cancel_download "1700000000" audio_in_progress).1 in
  files w' !! "downloads/1700000000_final.mp3" = None /\
  files w' !! "downloads/1700000000_temp.mp3" = None /\
  files w' !! "downloads/1700000000_temp" = Some {| mtime := sample_now |}.
Proof.
  destruct (download (sample_request "140") first_reading (Ok sample_info) empty_world)
    as [w1 [[r1 [j1|]]|]] eqn:E1; try (vm_compute in E1; discriminate).
  assert (Hreg : forall id, id = "1700000000" ->
                   is_Some (download_progress audio_in_progress !! id)).
  { intros id ->. apply is_Some_bool. vm_compute. reflexivity. }
  assert (Hid : job_id j1 = "1700000000" /\ is_audio_only j1 = true /\
                final_path j1 = "downloads/1700000000_final.mp3" /\
                temp_path j1 = "downloads/1700000000_temp").
  { vm_compute in E1. by injection E1 as <- <- <-. }
  destruct Hid as (Hid & Ha & Hf & Ht).
  pose proof (cancel_deletes_artifact _ _ _ _ _ _ _ audio_in_progress E1
                (Hreg _ Hid)) as (H1 & H2).
  destruct (H2 Ha) as [H3 H4]. rewrite Hid, ?Hf, ?Ht in *.
  cbn zeta. split; [exact H1|]. split; [exact H3|].
  rewrite H4. vm_compute. reflexivity.
Defined.

(** ** The recorded progress *)






(** ** Delivery *)

(** C6 (as stated, refuted).  The file is deleted when the stream is closed,
    not when it is served: a second request handled before that is served the
    same file.  And the callback of lines 690-702 removes six fixed names; the
    stream [temp_video_<id>.mp4], which [cancel_download] counts among the
    job's files, is still there after the fetch. *)
Lemma fetch_serves_twice_and_leaves_streams :
  serves_file (get_video sample_id delivered_with_streams).2 = true /\
  serves_file (get_video sample_id (get_video sample_id delivered_with_streams).1).2
    = true /\
  partial_file sample_id "downloads/temp_video_1700000000.mp4" = true /\
  files (fetch_artifact sample_id delivered_with_streams).1
    !! "downloads/temp_video_1700000000.mp4" = Some {| mtime := sample_now |} /\
  ~ delivered_at_most_once.
Proof.
  assert (H1 : serves_file (get_video sample_id delivered_with_streams).2 = true)
    by (vm_compute; reflexivity).
  assert (H2 : serves_file
                 (get_video sample_id (get_video sample_id delivered_with_streams).1).2
               = true) by (vm_compute; reflexivity).
  split; [exact H1|]. split; [exact H2|].
  split; [vm_compute; reflexivity|]. split; [vm_compute; reflexivity|].
  intros H. destruct (H delivered_with_streams sample_id H1) as [H3 _].
  rewrite H2 in H3. discriminate H3.
Qed.

Lemma closed_paths_explicit path id :
  closed_paths path id =
    let base := path_join DOWNLOAD_FOLDER id in
    [path; base +:+ ".mp3"; base +:+ ".webm"; base +:+ ".m4a";
     base +:+ "_temp"; base +:+ "_temp.mp3"; base +:+ ".mp4"].
Proof. reflexivity. Qed.

(** C6 (amended).  When [get_video] sends the file of a job, the job's
    status is [completed]; a second request handled before the stream is
    closed is sent the same file.  Once the stream is closed, the file at
    [final_path] and the six files [downloads/<id>] followed by [.mp3],
    [.webm], [.m4a], [_temp], [_temp.mp3] and [.mp4] do not exist, every other
    file and the four dictionaries are as before, and from then on every fetch
    of that job answers 404 "Archivo no encontrado".  A job whose status is
    not [completed] is never served a file: the handler answers 400, 404 or
    500 and changes nothing. *)
Theorem fetch_then_not_found (w : World) (video_id : string) :
  (forall path mime name,
     (get_video video_id w).2 = Ok (Response 200 (Attachment path mime name)) ->
     job_field w video_id "status" = Some (VStr "completed") /\
     get_video video_id (get_video video_id w).1
       = (w, Ok (Response 200 (Attachment path mime name))) /\
     let w' := (fetch_artifact video_id w).1 in
     let base := path_join DOWNLOAD_FOLDER video_id in
     (forall p,
        files w' !! p =
          if bool_decide (p ∈ [path; base +:+ ".mp3"; base +:+ ".webm";
                               base +:+ ".m4a"; base +:+ "_temp";
                               base +:+ "_temp.mp3"; base +:+ ".mp4"])
          then None else files w !! p) /\
     download_progress w' = download_progress w /\
     download_processes w' = download_processes w /\
     download_threads w' = download_threads w /\
     download_cancel_flags w' = download_cancel_flags w /\
     (forall n, (fetch_artifact video_id
                   (Nat.iter n (fun w => (fetch_artifact video_id w).1) w')).2
                = Ok NOT_FOUND)) /\
  (job_field w video_id "status" <> Some (VStr "completed") ->
     serves_file (get_video video_id w).2 = false /\
     (get_video video_id w).1 = w /\
     exists r, (get_video video_id w).2 = Ok r /\
       (status_code r = 400 \/ status_code r = 404 \/ status_code r = 500)).
Proof.
  destruct (get_video_cases w video_id) as [Hw Hc]. split.
  - intros path mime name Hr.
    destruct Hc as [(d & path' & mime' & name' & Hd & Hst & Hfp & Hex & Hr')|[Hs _]].
    2: { by rewrite Hr in Hs. }
    rewrite Hr in Hr'. injection Hr' as <- <- <-.
    split; [unfold job_field; by rewrite Hd|].
    split.
    { rewrite Hw. destruct (get_video video_id w) as [w0 r0]. simpl in Hw, Hr.
      by subst w0 r0. }
    assert (Hf : fetch_artifact video_id w =
              (set_files (fun fs => foldl (fun fs p => delete p fs) fs
                                      (closed_paths path video_id)) w,
               Ok (Response 200 (Attachment path mime name)))).
    { unfold fetch_artifact. unfold mbind, ST_bind.
      destruct (get_video video_id w) as [w0 r0] eqn:Hg. simpl in Hw, Hr. subst w0 r0.
      cbn [payload]. by rewrite on_close_run. }
    rewrite Hf. cbn [fst]. cbv zeta.
    set (w' := set_files _ w).
    assert (Hlook : forall p, files w' !! p =
              if bool_decide (p ∈ closed_paths path video_id) then None
              else files w !! p).
    { intros p. subst w'. cbn [files set_files]. apply foldl_delete_lookup. }
    rewrite closed_paths_explicit in Hlook. cbv zeta in Hlook.
    split; [exact Hlook|]. do 4 (split; [done|]).
    assert (Hgone : files w' !! path = None).
    { rewrite Hlook. rewrite bool_decide_eq_true_2; [done|]. apply list_elem_of_here. }
    assert (Hfix : fetch_artifact video_id w' = (w', Ok NOT_FOUND)).
    { unfold fetch_artifact. unfold mbind, ST_bind.
      assert (get_video video_id w' = (w', Ok NOT_FOUND)) as ->.
      { by apply (get_video_missing_file w' video_id d path). }
      done. }
    intros n.
    assert (Nat.iter n (fun w => (fetch_artifact video_id w).1) w' = w') as ->.
    { induction n as [|n IHn]; [done|]. rewrite Nat.iter_succ, IHn. by rewrite Hfix. }
    by rewrite Hfix.
  - intros Hst. destruct Hc as [(d & path & mime & name & Hd & Hs & _)|[Hs Hr]].
    + exfalso. apply Hst. unfold job_field. by rewrite Hd.
    + done.
Qed.

(** The artifact of the completed sample job: fetched, it is gone together
    with [<id>.webm]; the stream [temp_video_<id>.mp4] stays; the second fetch
    is answered 404.  The job that was only submitted is not served. *)
Lemma fetch_then_not_found_witness :
  (get_video sample_id delivered_with_streams).2
    = Ok (Response 200 (Attachment "downloads/video_1700000000.mp4" "video/mp4"
                          "Angel Downloader | download.mp4")) /\
  (let w' := (fetch_artifact sample_id delivered_with_streams).1 in
   files w' !! "downloads/video_1700000000.mp4" = None /\
   files w' !! "downloads/1700000000.webm" = None /\
   files w' !! "downloads/temp_video_1700000000.mp4" = Some {| mtime := sample_now |} /\
   (fetch_artifact sample_id w').2 = Ok NOT_FOUND) /\
  job_field submitted sample_id "status" <> Some (VStr "completed") /\
  serves_file (get_video sample_id submitted).2 = false.
Proof.
  assert (H : (get_video sample_id delivered_with_streams).2
    = Ok (Response 200 (Attachment "downloads/video_1700000000.mp4" "video/mp4"
                          "Angel Downloader | download.mp4")))
    by (vm_compute; reflexivity).
  assert (H' : job_field submitted sample_id "status" <> Some (VStr "completed")).
  { intros E. vm_compute in E. discriminate E. }
  destruct (proj1 (fetch_then_not_found delivered_with_streams sample_id) _ _ _ H)
    as (_ & _ & Hf & _ & _ & _ & _ & Hn).
  destruct (proj2 (fetch_then_not_found submitted sample_id) H') as (Hs & _).
  split; [exact H|]. split; [|split; [exact H'|exact Hs]].
  cbv zeta in *. split; [|split; [|split]].
  - refine (eq_trans (Hf _) _). vm_compute. reflexivity.
  - refine (eq_trans (Hf _) _). vm_compute. reflexivity.
  - refine (eq_trans (Hf _) _). vm_compute. reflexivity.
  - exact (Hn 0%nat).
Defined.

(** ** A program logic for the handlers *)

Section Post.
Context {S : Type}.

Lemma post_ret {A} (a : A) (s : S) Qok Qerr : Qok s a -> post (mret a) s Qok Qerr.
Proof. done. Qed.


















End Post.



(** ** Where error texts come from *)




















(** *** Cancellation and the sweeper *)







(** *** The progress hook and the scripts *)









(** *** The single-file worker *)



(** *** The two-stream worker *)











(** *** The handlers *)




(** ** The error field *)




